(** * ComptoxAI graphs: the [Graph] class of [comptox_ai/graph/graph.py]

    A shallow embedding of the [Graph] class and of the Python run time it
    relies on, followed by the properties of its loaders and accessors.

    - [Py]: Python values, exceptions, [os.path.join], text-mode line
      iteration, and the monad in which file access is traced.
    - [GraphIO]: the data containers imported from [comptox_ai.graph.io].
    - [GraphPy]: the [Graph] class itself, method by method.
    - [IdentityMap]: what it means for an id map to be a dense bijection.
    - [Toy], [ToyFull], [LongName]: a data set of three nodes and two
      edges, with its decoders, its optional files, and a long prefix.
    - [Dataset], [OptionalFiles]: the states in which the files of a data
      set can be. *)

From Stdlib Require Import Ascii.
From stdpp Require Import base strings list gmap pretty.

Local Open Scope string_scope.
Set Warnings "-register-all".
Set Default Proof Using "Type".

(* ===================================================================== *)
(** ** The Python run time *)
(* ===================================================================== *)

Module Py.

(** Python values: those that [json.load] can produce, and tuples. A JSON
    object becomes a [dict] with string keys, kept in insertion order. *)
Inductive pyobj : Type :=
| PyNone
| PyBool (b : bool)
| PyInt (z : Z)
| PyFloat (repr : string)
| PyStr (s : string)
| PyList (xs : list pyobj)
| PyTuple (xs : list pyobj)
| PyDict (kvs : list (string * pyobj)).

(** A raised exception: the name of its class and its argument (the file
    name for an [OSError], a message otherwise). *)
Record exn : Type := Raise { exn_class : string; exn_arg : string }.

Definition FileNotFoundError (path : string) : exn := Raise "FileNotFoundError" path.
Definition TypeError (msg : string) : exn := Raise "TypeError" msg.
Definition NotImplementedError : exn := Raise "NotImplementedError" "".

(** [isinstance(e, FileNotFoundError)]: the class has no subclass in the
    standard library, so the test is on the class name. *)
Definition is_FileNotFoundError (e : exn) : bool :=
  bool_decide (exn_class e = "FileNotFoundError").

(** A NumPy array as [numpy.load] returns it: a shape and its entries in
    row-major order, the entries kept as uninterpreted tokens. *)
Record ndarray : Type := NdArray { nd_shape : list nat; nd_flat : list string }.

(** A NetworkX graph as [json_graph.node_link_graph] returns it. *)
Record NxGraph : Type := MkNxGraph {
  nx_directed : bool;
  nx_nodes : list pyobj;
  nx_edges : list (pyobj * pyobj)
}.

(** *** [posixpath.join] with one component *)

Definition sep : ascii := "/"%char.

Definition startswith_sep (s : string) : bool :=
  match s with
  | String c _ => bool_decide (c = sep)
  | EmptyString => false
  end.

Fixpoint endswith_sep (s : string) : bool :=
  match s with
  | EmptyString => false
  | String c EmptyString => bool_decide (c = sep)
  | String _ r => endswith_sep r
  end.

Definition is_empty (s : string) : bool :=
  match s with EmptyString => true | _ => false end.

(** The loop body of [posixpath.join(a, b)] for [str] arguments. *)
Definition join (a b : string) : string :=
  if startswith_sep b then b
  else if is_empty a || endswith_sep a then a +:+ b
  else a +:+ "/" +:+ b.

(** [os.path.join(a, b)] where [a] may be [None]: [os.fspath(None)] raises
    [TypeError] before anything else happens. *)
Definition os_path_join (a : option string) (b : string) : exn + string :=
  match a with
  | None => inl (TypeError "expected str, bytes or os.PathLike object, not NoneType")
  | Some a => inr (join a b)
  end.

(** *** Iterating over a file opened in text mode *)

Definition LF : ascii := "010"%char.
Definition CR : ascii := "013"%char.

(** Universal newlines: CR LF and a lone CR are read as LF. *)
Fixpoint translate_newlines (s : string) : string :=
  match s with
  | EmptyString => EmptyString
  | String c r =>
    if bool_decide (c = CR) then
      String LF
        match r with
        | String c' r' => if bool_decide (c' = LF) then translate_newlines r'
                          else translate_newlines r
        | EmptyString => EmptyString
        end
    else String c (translate_newlines r)
  end.

(** [for l in fp]: every line keeps its terminator, a last line without
    one is yielded as it is. [cur] is the line being read. *)
Fixpoint iter_lines (cur s : string) : list string :=
  match s with
  | EmptyString => if is_empty cur then [] else [cur]
  | String c r =>
    if bool_decide (c = LF) then (cur +:+ String LF EmptyString) :: iter_lines EmptyString r
    else iter_lines (cur +:+ String c EmptyString) r
  end.

Definition file_lines (content : string) : list string :=
  iter_lines EmptyString (translate_newlines content).

Definition UnicodeDecodeError : exn :=
  Raise "UnicodeDecodeError" "codec can't decode byte: invalid start byte".

(** *** The host: files and the libraries that decode them

    [files] holds the paths that [open] opens for reading, each with the
    bytes of the file. For every other path [open] raises the exception
    [open_error] gives: [FileNotFoundError] when the path names nothing,
    and, as the case may be, [NotADirectoryError], [IsADirectoryError],
    [PermissionError], [OSError] (a name that is too long) or
    [ValueError] (a NUL in the name). [decode_text] is the reading of
    bytes in text mode with the encoding of the locale, [None] when the
    bytes are not text in that encoding. The decoders belong to [json],
    [networkx] and [numpy]; they are taken as given, each from the bytes
    of the file to a value or to the exception it raises (for [json],
    [UnicodeDecodeError] included). *)
Record Host : Type := MkHost {
  files : gmap string string;
  open_error : string → exn;
  decode_text : string → option string;
  json_loads : string → exn + pyobj;
  node_link_graph : pyobj → exn + NxGraph;
  npy_loads : string → exn + ndarray
}.

Definition with_file (h : Host) (path content : string) : Host :=
  {| files := <[path := content]> (files h);
     open_error := open_error h;
     decode_text := decode_text h;
     json_loads := json_loads h;
     node_link_graph := node_link_graph h;
     npy_loads := npy_loads h |}.

(** The host after the file at [path] was removed: the path names
    nothing. *)
Definition without_file (h : Host) (path : string) : Host :=
  {| files := delete path (files h);
     open_error := λ other,
       if bool_decide (other = path) then FileNotFoundError path else open_error h other;
     decode_text := decode_text h;
     json_loads := json_loads h;
     node_link_graph := node_link_graph h;
     npy_loads := npy_loads h |}.

(** *** Computations that open files and may raise

    A computation reads the host, appends every path it tries to open to
    the log, and returns a value or raises. *)
Definition io (A : Type) : Type := Host → list string → list string * (exn + A).

Definition io_ret {A} (a : A) : io A := λ _ log, (log, inr a).

Definition io_bind {A B} (m : io A) (k : A → io B) : io B :=
  λ h log,
    match m h log with
    | (log', inr a) => k a h log'
    | (log', inl e) => (log', inl e)
    end.

Notation "x <~ m ;; k" := (io_bind m (λ x, k))
  (at level 100, m at next level, right associativity, only parsing).

(** A pure step that may raise. *)
Definition lift {A} (r : exn + A) : io A := λ _ log, (log, r).

(** [open(path)] for reading: the bytes of the file, or the exception
    that [open] raises for that path. *)
Definition open_r (path : string) : io string :=
  λ h log,
    ((log ++ [path])%list,
     match files h !! path with
     | Some content => inr content
     | None => inl (open_error h path)
     end).

(** Reading an open file in text mode: the decoded text, or
    [UnicodeDecodeError]. *)
Definition read_text (bytes : string) : io string :=
  λ h log,
    (log,
     match decode_text h bytes with
     | Some text => inr text
     | None => inl UnicodeDecodeError
     end).

(** [json.load(open(path, 'r'))]. *)
Definition json_load (path : string) : io pyobj :=
  bytes <~ open_r path ;; λ h, lift (json_loads h bytes) h.

(** [np.load(path)]: NumPy opens the file itself. *)
Definition np_load (path : string) : io ndarray :=
  bytes <~ open_r path ;; λ h, lift (npy_loads h bytes) h.

(** [try: body  except FileNotFoundError: handler]. *)
Definition try_except_FileNotFoundError {A} (body handler : io A) : io A :=
  λ h log,
    match body h log with
    | (log', inl e) => if is_FileNotFoundError e then handler h log' else (log', inl e)
    | r => r
    end.

(** What such a [try] whose handler returns [v] makes of the exception
    [e] of its body. *)
Definition caught {A} (v : A) (e : exn) : exn + A :=
  if is_FileNotFoundError e then inr v else inl e.

(** Running a computation from an empty log. *)
Definition run {A} (m : io A) (h : Host) : list string * (exn + A) := m h [].
Definition opened {A} (m : io A) (h : Host) : list string := (run m h).1.
Definition outcome {A} (m : io A) (h : Host) : exn + A := (run m h).2.

(** *** [textwrap.dedent]

    Lines made of blanks only become empty; the margin is the longest
    run of blanks that starts every other line; a margin that is not
    empty is removed from the start of every line that has it. *)

Definition TAB : ascii := "009"%char.

Definition is_blank (c : ascii) : bool :=
  bool_decide (c = " "%char) || bool_decide (c = TAB).

Fixpoint all_blank (s : string) : bool :=
  match s with
  | EmptyString => true
  | String c r => is_blank c && all_blank r
  end.

(** The leading blanks of a line. *)
Fixpoint take_blanks (s : string) : string :=
  match s with
  | String c r => if is_blank c then String c (take_blanks r) else EmptyString
  | EmptyString => EmptyString
  end.

Fixpoint common_prefix (a b : string) : string :=
  match a, b with
  | String x a', String y b' =>
    if bool_decide (x = y) then String x (common_prefix a' b') else EmptyString
  | _, _ => EmptyString
  end.

(** [s] without its prefix [m], when it has that prefix. *)
Fixpoint strip_prefix (m s : string) : option string :=
  match m, s with
  | EmptyString, _ => Some s
  | String x m', String y s' => if bool_decide (x = y) then strip_prefix m' s' else None
  | String _ _, EmptyString => None
  end.

(** The lines of a text, without their terminators: [text.split('\n')]. *)
Fixpoint split_on_LF (s : string) : list string :=
  match s with
  | EmptyString => [EmptyString]
  | String c r =>
    if bool_decide (c = LF) then EmptyString :: split_on_LF r
    else match split_on_LF r with
         | l :: ls => String c l :: ls
         | [] => [String c EmptyString]
         end
  end.

Fixpoint join_LF (lines : list string) : string :=
  match lines with
  | [] => EmptyString
  | [l] => l
  | l :: ls => l +:+ String LF (join_LF ls)
  end.

Definition dedent (text : string) : string :=
  let lines := (λ l, if all_blank l then EmptyString else l) <$> split_on_LF text in
  let indents := take_blanks <$> filter (λ l, l ≠ EmptyString) lines in
  match indents with
  | [] => join_LF lines
  | i :: rest =>
    let margin := foldl common_prefix i rest in
    if is_empty margin then join_LF lines
    else join_LF ((λ l, default l (strip_prefix margin l)) <$> lines)
  end.

(** *** [str.format] with positional fields

    The fragment of the format language with the fields [{0}], [{1}], ...
    and the escapes of the two braces, applied to arguments that are
    already strings. A field of another form is reported as a
    [ValueError]. *)

Definition AttributeError (msg : string) : exn := Raise "AttributeError" msg.
Definition ValueError (msg : string) : exn := Raise "ValueError" msg.
Definition IndexError (msg : string) : exn := Raise "IndexError" msg.

Definition digit_of (c : ascii) : option nat :=
  let n := nat_of_ascii c in
  if ((48 <=? n) && (n <=? 57))%nat then Some (n - 48) else None.

(** Where the scan of the format string stands. *)
Inductive scan : Type :=
| InText
| AfterOpen
| InIndex (n : nat)
| AfterClose.

Definition emit (pre : string) (r : exn + string) : exn + string :=
  match r with
  | inr s => inr (pre +:+ s)
  | inl e => inl e
  end.

Fixpoint format_go (st : scan) (s : string) (args : list string) : exn + string :=
  match s with
  | EmptyString =>
    match st with
    | InText => inr EmptyString
    | AfterOpen => inl (ValueError "Single '{' encountered in format string")
    | InIndex _ => inl (ValueError "expected '}' before end of string")
    | AfterClose => inl (ValueError "Single '}' encountered in format string")
    end
  | String c r =>
    match st with
    | InText =>
      if bool_decide (c = "{"%char) then format_go AfterOpen r args
      else if bool_decide (c = "}"%char) then format_go AfterClose r args
      else emit (String c EmptyString) (format_go InText r args)
    | AfterOpen =>
      if bool_decide (c = "{"%char) then emit "{" (format_go InText r args)
      else match digit_of c with
           | Some k => format_go (InIndex k) r args
           | None => inl (ValueError "field outside the positional fragment")
           end
    | InIndex n =>
      if bool_decide (c = "}"%char) then
        match args !! n with
        | Some a => emit a (format_go InText r args)
        | None => inl (IndexError "Replacement index out of range for positional args tuple")
        end
      else match digit_of c with
           | Some k => format_go (InIndex (10 * n + k)) r args
           | None => inl (ValueError "field outside the positional fragment")
           end
    | AfterClose =>
      if bool_decide (c = "}"%char) then emit "}" (format_go InText r args)
      else inl (ValueError "Single '}' encountered in format string")
    end
  end.

Definition str_format (template : string) (args : list string) : exn + string :=
  format_go InText template args.



End Py.

(* ===================================================================== *)
(** ** The data containers of [comptox_ai.graph.io] *)
(* ===================================================================== *)

Module GraphIO.
Import Py.

(** The three container classes that [graph.py] imports. *)
Inductive Format : Type := Neo4j | NetworkX | GraphSAGE.

#[global] Instance Format_eq_dec : EqDecision Format.
Proof. solve_decision. Defined.

(** Modelled from the spec: the Heterogeneity Descriptor of section 3,
    kept by the containers of [comptox_ai.graph.io]: the set of node
    classes and the set of edge classes of a graph. *)
Record HeterogeneityDescriptor : Type := MkDescriptor {
  hd_node_classes : gset string;
  hd_edge_classes : gset string
}.

(** Modelled from the spec: the container classes [GraphDataMixin],
    [Neo4j], [NetworkX] and [GraphSAGE] of [comptox_ai.graph.io], which
    [graph.py] imports and whose definitions are not among the sources.
    A container records which of the three classes it is an instance of
    ([None] for another [GraphDataMixin]), the four keyword arguments that
    [Graph.from_graphsage] passes to [GraphSAGE], and the Heterogeneity
    Descriptor of section 3. *)
Record GraphData : Type := MkGraphData {
  data_class : option Format;
  graph : NxGraph;
  node_map : pyobj;
  node_classes : pyobj;
  node_features : option ndarray;
  descriptor : HeterogeneityDescriptor
}.

Definition nodes (d : GraphData) : list pyobj := nx_nodes (graph d).
Definition edges (d : GraphData) : list (pyobj * pyobj) := nx_edges (graph d).

(** Modelled from the spec: the attribute [_is_heterogeneous] of a
    container, which [Graph.is_heterogeneous] reads and which is set in
    [comptox_ai.graph.io]. Section 4.1: true iff the Heterogeneity
    Descriptor lists more than one node class or more than one edge
    class. *)
Definition _is_heterogeneous (d : GraphData) : bool :=
  bool_decide (1 < size (hd_node_classes (descriptor d)))
  || bool_decide (1 < size (hd_edge_classes (descriptor d))).

(** Modelled from the spec: the constructor call
    [GraphSAGE(graph=, node_map=, node_classes=, node_features=)]. It
    stores its arguments; the descriptor is the one that [infer] reads off
    them (section 4.2: inferred from source metadata). *)
Definition GraphSAGE_new
    (infer : NxGraph → pyobj → pyobj → option ndarray → HeterogeneityDescriptor)
    (G : NxGraph) (id_map class_map : pyobj) (feats_map : option ndarray) : GraphData :=
  {| data_class := Some GraphSAGE;
     graph := G;
     node_map := id_map;
     node_classes := class_map;
     node_features := feats_map;
     descriptor := infer G id_map class_map feats_map |}.

End GraphIO.

(* ===================================================================== *)
(** ** The [Graph] class *)
(* ===================================================================== *)

Module GraphPy.
Import Py GraphIO.

(** An instance: the attributes [_data] and [format]. [format] is [None]
    when [__init__] left it unset. *)
Record Graph : Type := MkGraph {
  _data : GraphData;
  format : option string
}.

(** [__init__(self, data)]: an [if]/[elif] chain of [isinstance] tests
    without an [else]. *)
Definition __init__ (data : GraphData) : Graph :=
  {| _data := data;
     format :=
       match data_class data with
       | Some Neo4j => Some "neo4j"
       | Some NetworkX => Some "networkx"
       | Some GraphSAGE => Some "graphsage"
       | None => None
       end |}.

Definition get_nodes (self : Graph) : list pyobj := nodes (_data self).
Definition get_edges (self : Graph) : list (pyobj * pyobj) := edges (_data self).

(** The methods marked [@abstractmethod] have the body [pass]. [Graph]
    derives from [object], not from [ABC], so it can be instantiated and
    the bodies run: the object is left as it is and [None] is returned. *)
Definition add_node (self : Graph) (nodes : pyobj) : Graph * (exn + pyobj) :=
  (self, inr PyNone).

Definition add_edge (self : Graph) (edges : pyobj) : Graph * (exn + pyobj) :=
  (self, inr PyNone).

Definition id_map (self : Graph) : pyobj := PyNone.

Definition __getitem__ (self : Graph) (key : pyobj) : Graph * (exn + pyobj) :=
  (self, inr PyNone).

Definition __setitem__ (self : Graph) (key value : pyobj) : Graph * (exn + pyobj) :=
  (self, inr PyNone).

Definition is_heterogeneous (self : Graph) : bool := _is_heterogeneous (_data self).

(** Binding the arguments of a call to a class method declared as
    [def m(cls)]: any positional or keyword argument is rejected before
    the body runs. *)
Definition bind_cls_only (args : list pyobj) (kwargs : list (string * pyobj)) : exn + unit :=
  match kwargs, args with
  | (k, _) :: _, _ => inl (TypeError ("got an unexpected keyword argument " +:+ k))
  | [], _ :: _ => inl (TypeError "takes 1 positional argument but more were given")
  | [], [] => inr ()
  end.

Definition from_neo4j (args : list pyobj) (kwargs : list (string * pyobj)) : exn + Graph :=
  match bind_cls_only args kwargs with
  | inl e => inl e
  | inr _ => inl NotImplementedError
  end.

Definition from_networkx (args : list pyobj) (kwargs : list (string * pyobj)) : exn + Graph :=
  match bind_cls_only args kwargs with
  | inl e => inl e
  | inr _ => inl NotImplementedError
  end.

Definition from_dgl (args : list pyobj) (kwargs : list (string * pyobj)) : exn + Graph :=
  match bind_cls_only args kwargs with
  | inl e => inl e
  | inr _ => inl NotImplementedError
  end.

(** The local variables of [from_graphsage] when it reaches the
    construction of the container. *)
Record Locals : Type := MkLocals {
  l_G : NxGraph;
  l_id_map : pyobj;
  l_class_map : pyobj;
  l_feats_map : option ndarray;
  l_walks : option (list string)
}.

(** The five paths, in the order in which they are computed. *)
Definition suffixes : list string :=
  ["-G.json"; "-id_map.json"; "-class_map.json"; "-feats.npy"; "-walks.txt"].

(** The path of the file of the data set with the given suffix. *)
Definition path_of (prefix directory suffix : string) : string :=
  join directory (prefix +:+ suffix).

Definition file_paths (prefix directory : string) : list string :=
  path_of prefix directory <$> suffixes.

(** [from_graphsage], from the first statement to the last [try]. *)
Definition load_files (prefix : string) (directory : option string) : io Locals :=
  nx_json_file <~ lift (os_path_join directory (prefix +:+ "-G.json")) ;;
  id_map_file <~ lift (os_path_join directory (prefix +:+ "-id_map.json")) ;;
  class_map_file <~ lift (os_path_join directory (prefix +:+ "-class_map.json")) ;;
  feats_map_file <~ lift (os_path_join directory (prefix +:+ "-feats.npy")) ;;
  walks_file <~ lift (os_path_join directory (prefix +:+ "-walks.txt")) ;;
  G <~ (j <~ json_load nx_json_file ;; λ h, lift (node_link_graph h j) h) ;;
  id_map <~ json_load id_map_file ;;
  class_map <~ try_except_FileNotFoundError
                 (json_load class_map_file)
                 (io_ret PyNone) ;;
  feats_map <~ try_except_FileNotFoundError
                 (a <~ np_load feats_map_file ;; io_ret (Some a))
                 (io_ret None) ;;
  walks <~ try_except_FileNotFoundError
             (fp <~ open_r walks_file ;;
              text <~ read_text fp ;;
              io_ret (Some (file_lines text)))
             (io_ret None) ;;
  io_ret (MkLocals G id_map class_map feats_map walks).

(** The five loading statements of [from_graphsage], each on its own. *)
Definition load_G (prefix directory : string) : io NxGraph :=
  j <~ json_load (path_of prefix directory "-G.json") ;;
  λ h, lift (node_link_graph h j) h.

Definition load_id_map (prefix directory : string) : io pyobj :=
  json_load (path_of prefix directory "-id_map.json").

Definition load_class_map (prefix directory : string) : io pyobj :=
  try_except_FileNotFoundError
    (json_load (path_of prefix directory "-class_map.json"))
    (io_ret PyNone).

Definition load_feats (prefix directory : string) : io (option ndarray) :=
  try_except_FileNotFoundError
    (a <~ np_load (path_of prefix directory "-feats.npy") ;; io_ret (Some a))
    (io_ret None).

Definition load_walks (prefix directory : string) : io (option (list string)) :=
  try_except_FileNotFoundError
    (fp <~ open_r (path_of prefix directory "-walks.txt") ;;
     text <~ read_text fp ;;
     io_ret (Some (file_lines text)))
    (io_ret None).

(** The exception, if any, with which a statement run on its own ends. *)
Definition raised {A} (m : io A) (h : Host) : option exn :=
  match outcome m h with
  | inl e => Some e
  | inr _ => None
  end.

(** For each of the five statements, in order, the exception with which
    it ends when run on its own. *)
Definition load_outcomes (prefix directory : string) (h : Host) : list (option exn) :=
  [raised (load_G prefix directory) h;
   raised (load_id_map prefix directory) h;
   raised (load_class_map prefix directory) h;
   raised (load_feats prefix directory) h;
   raised (load_walks prefix directory) h].

(** The names bound in the body of [class Graph]. *)
Definition class_attributes : list string :=
  ["__init__"; "__repr__"; "get_nodes"; "add_node"; "get_edges"; "add_edge";
   "id_map"; "__getitem__"; "__setitem__"; "is_heterogeneous";
   "from_neo4j"; "from_networkx"; "from_graphsage"; "from_dgl"].

(** The names that an instance of a class deriving from [object] has
    besides those of its class. *)
Definition object_attributes : list string :=
  ["__class__"; "__delattr__"; "__dict__"; "__dir__"; "__doc__"; "__eq__";
   "__format__"; "__ge__"; "__getattribute__"; "__getstate__"; "__gt__";
   "__hash__"; "__init_subclass__"; "__le__"; "__lt__"; "__module__"; "__ne__";
   "__new__"; "__reduce__"; "__reduce_ex__"; "__setattr__"; "__sizeof__";
   "__str__"; "__subclasshook__"; "__weakref__"].

(** The names that [__init__] binds on the instance. *)
Definition instance_attributes (self : Graph) : list string :=
  "_data" :: match format self with Some _ => ["format"] | None => [] end.

(** Looking a name up on an instance, as [self.name] does: the class
    defines neither [__getattr__] nor [__getattribute__], so a name that
    is bound nowhere raises [AttributeError]. *)
Definition lookup (self : Graph) (name : string) : exn + unit :=
  if bool_decide
       (name ∈ (instance_attributes self ++ class_attributes ++ object_attributes)%list)
  then inr ()
  else inl (AttributeError ("'Graph' object has no attribute '" +:+ name +:+ "'")).

(** [from_graphsage(cls, prefix, directory=None)]: the files are loaded,
    then the container is built from four of the five locals and wrapped. *)
Definition from_graphsage
    (infer : NxGraph → pyobj → pyobj → option ndarray → HeterogeneityDescriptor)
    (prefix : string) (directory : option string) : io Graph :=
  l <~ load_files prefix directory ;;
  let graph_data :=
    GraphSAGE_new infer (l_G l) (l_id_map l) (l_class_map l) (l_feats_map l) in
  io_ret (__init__ graph_data).

(** The literal passed to [dedent] in [__repr__]: it starts with a line
    break, and each of its lines, the last one included, is indented by
    twelve spaces. *)
Definition repr_literal : string :=
  let nl := String LF EmptyString in
  let indent := "            " in
  nl +:+ indent +:+ "ComptoxAI Graph" +:+ nl
  +:+ indent +:+ "---------------" +:+ nl
  +:+ indent +:+ "Format:     {0}" +:+ nl
  +:+ indent +:+ "Node count: {1}" +:+ nl
  +:+ indent +:+ "Edge count: {2}" +:+ nl
  +:+ indent.

(** [__repr__(self)]. The arguments of [format] are evaluated in order:
    reading [self.format] raises [AttributeError] when [__init__] left it
    unset, before the nodes and edges are counted. *)
Definition __repr__ (self : Graph) : exn + string :=
  match format self with
  | None => inl (AttributeError "'Graph' object has no attribute 'format'")
  | Some f =>
    str_format (dedent repr_literal)
      [f; pretty (length (get_nodes self)); pretty (length (get_edges self))]
  end.

(** A call of one of the four methods whose body is [pass]. *)
Inductive call : Type :=
| AddNode (nodes : pyobj)
| AddEdge (edges : pyobj)
| GetItem (key : pyobj)
| SetItem (key value : pyobj).

Definition do_call (c : call) (self : Graph) : Graph * (exn + pyobj) :=
  match c with
  | AddNode n => add_node self n
  | AddEdge e => add_edge self e
  | GetItem k => __getitem__ self k
  | SetItem k v => __setitem__ self k v
  end.

(** A sequence of calls on the same object: the object after the last
    call and the outcome of each call. A call that raises does not end
    the sequence (the caller may catch the exception). *)
Fixpoint do_calls (cs : list call) (self : Graph) : Graph * list (exn + pyobj) :=
  match cs with
  | [] => (self, [])
  | c :: cs' =>
    let '(self', r) := do_call c self in
    let '(self'', rs) := do_calls cs' self' in
    (self'', r :: rs)
  end.

(** The text that [__repr__] builds for a tag and two counts. *)
Definition rendered (tag nodes edges : string) : string :=
  let nl := String LF EmptyString in
  nl +:+ "ComptoxAI Graph" +:+ nl
  +:+ "---------------" +:+ nl
  +:+ "Format:     " +:+ tag +:+ nl
  +:+ "Node count: " +:+ nodes +:+ nl
  +:+ "Edge count: " +:+ edges +:+ nl.

End GraphPy.

(* ===================================================================== *)
(** ** Identity maps *)
(* ===================================================================== *)

Module IdentityMap.
Import Py.

Definition as_index (v : pyobj) : option Z :=
  match v with PyInt z => Some z | _ => None end.

(** The external ids and the internal indices of a [dict] that maps ids
    to integers. *)
Definition entries (m : pyobj) : option (list string * list Z) :=
  match m with
  | PyDict kvs => idx ← mapM as_index kvs.*2; Some (kvs.*1, idx)
  | _ => None
  end.

(** A bijection between external ids and the dense range [0, n): no id
    twice, and the indices are 0, ..., n-1 in some order. *)
Definition is_dense_bijection (m : pyobj) : Prop :=
  ∃ ids idx, entries m = Some (ids, idx)
    ∧ NoDup ids
    ∧ idx ≡ₚ (Z.of_nat <$> seq 0 (length ids)).

(** The external id [ext] is registered in the map. *)
Definition registered (m : pyobj) (ext : string) : Prop :=
  ∃ ids idx, entries m = Some (ids, idx) ∧ ext ∈ ids.

End IdentityMap.

(* ===================================================================== *)
(** ** A small data set *)
(* ===================================================================== *)

Module Toy.
Import Py GraphIO GraphPy.

Definition dquote : ascii := "034"%char.
Definition q (s : string) : string := String dquote (s +:+ String dquote EmptyString).

(** The text of [toy-id_map.json]: ids a, b, c mapped to 0, 1, 2. *)
Definition id_map_text : string :=
  "{" +:+ q "a" +:+ ": 0, " +:+ q "b" +:+ ": 1, " +:+ q "c" +:+ ": 2}".

Definition id_map_value : pyobj :=
  PyDict [("a", PyInt 0); ("b", PyInt 1); ("c", PyInt 2)].

(** The text of [toy-G.json]: three nodes and two links. *)
Definition G_text : string :=
  "{" +:+ q "directed" +:+ ": false, " +:+ q "multigraph" +:+ ": false, "
  +:+ q "graph" +:+ ": {}, "
  +:+ q "nodes" +:+ ": [{" +:+ q "id" +:+ ": " +:+ q "a" +:+ "}, {"
  +:+ q "id" +:+ ": " +:+ q "b" +:+ "}, {" +:+ q "id" +:+ ": " +:+ q "c" +:+ "}], "
  +:+ q "links" +:+ ": [{" +:+ q "source" +:+ ": " +:+ q "a" +:+ ", "
  +:+ q "target" +:+ ": " +:+ q "b" +:+ "}, {" +:+ q "source" +:+ ": " +:+ q "b"
  +:+ ", " +:+ q "target" +:+ ": " +:+ q "c" +:+ "}]}".

Definition G_value : pyobj :=
  PyDict [("directed", PyBool false); ("multigraph", PyBool false);
          ("graph", PyDict []);
          ("nodes", PyList [PyDict [("id", PyStr "a")]; PyDict [("id", PyStr "b")];
                            PyDict [("id", PyStr "c")]]);
          ("links", PyList [PyDict [("source", PyStr "a"); ("target", PyStr "b")];
                            PyDict [("source", PyStr "b"); ("target", PyStr "c")]])].

Definition G_graph : NxGraph :=
  {| nx_directed := false;
     nx_nodes := [PyStr "a"; PyStr "b"; PyStr "c"];
     nx_edges := [(PyStr "a", PyStr "b"); (PyStr "b", PyStr "c")] |}.

Definition JSONDecodeError : exn := Raise "JSONDecodeError" "Expecting value".

(** The decoders, on the texts above. *)
Definition toy_json_loads (text : string) : exn + pyobj :=
  if bool_decide (text = G_text) then inr G_value
  else if bool_decide (text = id_map_text) then inr id_map_value
  else inl JSONDecodeError.

Definition toy_node_link_graph (j : pyobj) : exn + NxGraph :=
  match j with
  | PyDict (("directed", PyBool false) :: _) => inr G_graph
  | _ => inl (Raise "KeyError" "nodes")
  end.

Definition toy_npy_loads (bytes : string) : exn + ndarray :=
  inl (Raise "ValueError" "Cannot load file containing pickled data").

(** A host in which every path outside [fs] names nothing and every
    file is ASCII text. *)
Definition host (fs : gmap string string) : Host :=
  {| files := fs;
     open_error := FileNotFoundError;
     decode_text := Some;
     json_loads := toy_json_loads;
     node_link_graph := toy_node_link_graph;
     npy_loads := toy_npy_loads |}.

(** Directory [data] with the two mandatory files only. *)
Definition mandatory_only : gmap string string :=
  {[ "data/toy-G.json" := G_text; "data/toy-id_map.json" := id_map_text ]}.

(** The same with a walks file of two lines, the second pair first. *)
Definition walks_text : string :=
  "1 2" +:+ String LF ("0 1" +:+ String LF EmptyString).

Definition with_walks : gmap string string :=
  <["data/toy-walks.txt" := walks_text]> mandatory_only.

(** GraphSAGE data is homogeneous: no class is listed. *)
Definition homogeneous (G : NxGraph) (id_map class_map : pyobj) (feats : option ndarray)
    : HeterogeneityDescriptor :=
  {| hd_node_classes := ∅; hd_edge_classes := ∅ |}.

(** The graph that [from_graphsage] returns for [mandatory_only]. *)
Definition toy_graph : Graph :=
  __init__ (GraphSAGE_new homogeneous G_graph id_map_value PyNone None).

(** A container with two node classes. *)
Definition two_class_data : GraphData :=
  {| data_class := Some Neo4j;
     graph := G_graph;
     node_map := id_map_value;
     node_classes := PyList [PyStr "Chemical"; PyStr "Disease"];
     node_features := None;
     descriptor := {| hd_node_classes := {[ "Chemical"; "Disease" ]};
                      hd_edge_classes := {[ "CHEMICALASSOCIATESWITHDISEASE" ]} |} |}.

End Toy.

(* ===================================================================== *)
(** ** What a directory holds *)
(* ===================================================================== *)

Module Dataset.
Import Py GraphIO GraphPy.

(** The path names no file that can be opened for reading. *)
Definition missing (h : Host) (path : string) : Prop := files h !! path = None.

(** The path names nothing: opening it raises [FileNotFoundError]. *)
Definition absent (h : Host) (path : string) : Prop :=
  files h !! path = None ∧ is_FileNotFoundError (open_error h path) = true.

(** The file exists and reads as the text [text]. *)
Definition reads_text (h : Host) (path text : string) : Prop :=
  ∃ bytes, files h !! path = Some bytes ∧ decode_text h bytes = Some text.

(** The file exists and [json.load] returns [j] for it. *)
Definition loads_json (h : Host) (path : string) (j : pyobj) : Prop :=
  ∃ bytes, files h !! path = Some bytes ∧ json_loads h bytes = inr j.

(** The file exists, [json.load] returns a value, and
    [node_link_graph] returns [G] for that value. *)
Definition loads_graph (h : Host) (path : string) (G : NxGraph) : Prop :=
  ∃ j, loads_json h path j ∧ node_link_graph h j = inr G.

(** The file exists and [np.load] returns [a] for it. *)
Definition loads_npy (h : Host) (path : string) (a : ndarray) : Prop :=
  ∃ bytes, files h !! path = Some bytes ∧ npy_loads h bytes = inr a.

(** The file exists and decoding it raises [e]. *)
Definition json_raises (h : Host) (path : string) (e : exn) : Prop :=
  ∃ bytes, files h !! path = Some bytes ∧ json_loads h bytes = inl e.

(** The state of an optional file and the value it leaves in its local:
    absent and [None], or present and decoded. *)
Definition class_map_is (h : Host) (prefix directory : string) (v : pyobj) : Prop :=
  (absent h (path_of prefix directory "-class_map.json") ∧ v = PyNone)
  ∨ loads_json h (path_of prefix directory "-class_map.json") v.

Definition feats_map_is (h : Host) (prefix directory : string) (v : option ndarray) : Prop :=
  (absent h (path_of prefix directory "-feats.npy") ∧ v = None)
  ∨ ∃ a, loads_npy h (path_of prefix directory "-feats.npy") a ∧ v = Some a.

Definition walks_is (h : Host) (prefix directory : string) (v : option (list string)) : Prop :=
  (absent h (path_of prefix directory "-walks.txt") ∧ v = None)
  ∨ ∃ text, reads_text h (path_of prefix directory "-walks.txt") text
            ∧ v = Some (file_lines text).

(** A mandatory file of the data set [prefix] in [directory] cannot be
    opened or cannot be decoded: the exception that this raises, and the
    paths opened up to that point. *)
Inductive mandatory_fault (h : Host) (prefix directory : string)
    : exn → list string → Prop :=
| G_missing :
    let pG := path_of prefix directory "-G.json" in
    missing h pG →
    mandatory_fault h prefix directory (open_error h pG) [pG]
| G_not_json e :
    let pG := path_of prefix directory "-G.json" in
    json_raises h pG e →
    mandatory_fault h prefix directory e [pG]
| G_not_node_link j e :
    let pG := path_of prefix directory "-G.json" in
    loads_json h pG j → node_link_graph h j = inl e →
    mandatory_fault h prefix directory e [pG]
| id_map_missing G :
    let pG := path_of prefix directory "-G.json" in
    let pM := path_of prefix directory "-id_map.json" in
    loads_graph h pG G → missing h pM →
    mandatory_fault h prefix directory (open_error h pM) [pG; pM]
| id_map_not_json G e :
    let pG := path_of prefix directory "-G.json" in
    let pM := path_of prefix directory "-id_map.json" in
    loads_graph h pG G → json_raises h pM e →
    mandatory_fault h prefix directory e [pG; pM].

(** Two hosts with the same decoders whose files agree everywhere except,
    possibly, at [path]. *)
Definition same_but_at (path : string) (h h' : Host) : Prop :=
  json_loads h = json_loads h'
  ∧ node_link_graph h = node_link_graph h'
  ∧ npy_loads h = npy_loads h'
  ∧ decode_text h = decode_text h'
  ∧ ∀ other, other ≠ path →
      files h !! other = files h' !! other ∧ open_error h other = open_error h' other.

(** Two hosts hold the same at the path of the file with suffix [s]. *)
Definition agree_at (prefix directory : string) (h h' : Host) (s : string) : Prop :=
  files h !! path_of prefix directory s = files h' !! path_of prefix directory s
  ∧ open_error h (path_of prefix directory s) = open_error h' (path_of prefix directory s).

(** A computation that opens nothing, and one that opens [path] and
    nothing else, whatever it returns. *)
Definition opens_none {A} (m : io A) : Prop :=
  ∀ h log, m h log = (log, outcome m h).

Definition opens_one {A} (path : string) (m : io A) : Prop :=
  ∀ h log, m h log = ((log ++ [path])%list, outcome m h).

(** The [k]-th loading statement is the first that raises, and it raises
    [e]. *)
Definition fails_at (h : Host) (prefix directory : string) (k : nat) (e : exn) : Prop :=
  load_outcomes prefix directory h !! k = Some (Some e)
  ∧ ∀ j, j < k → load_outcomes prefix directory h !! j = Some None.

End Dataset.

(* ===================================================================== *)
(** ** Optional files that are there but cannot be decoded *)
(* ===================================================================== *)

Module OptionalFiles.
Import Py GraphIO GraphPy Dataset.

(** The file exists and [np.load] raises [e] for it. *)
Definition npy_raises (h : Host) (path : string) (e : exn) : Prop :=
  ∃ bytes, files h !! path = Some bytes ∧ npy_loads h bytes = inl e.

(** The mandatory files load, and an optional file is there but its
    decoder raises an exception other than [FileNotFoundError], or
    cannot be opened for another reason than being absent: that
    exception, and the paths opened up to that point. *)
Inductive optional_fault (h : Host) (prefix directory : string)
    : exn → list string → Prop :=
| class_map_undecodable G m e :
    loads_graph h (path_of prefix directory "-G.json") G →
    loads_json h (path_of prefix directory "-id_map.json") m →
    json_raises h (path_of prefix directory "-class_map.json") e →
    is_FileNotFoundError e = false →
    optional_fault h prefix directory e
      [path_of prefix directory "-G.json"; path_of prefix directory "-id_map.json";
       path_of prefix directory "-class_map.json"]
| feats_undecodable G m cm e :
    loads_graph h (path_of prefix directory "-G.json") G →
    loads_json h (path_of prefix directory "-id_map.json") m →
    class_map_is h prefix directory cm →
    npy_raises h (path_of prefix directory "-feats.npy") e →
    is_FileNotFoundError e = false →
    optional_fault h prefix directory e
      [path_of prefix directory "-G.json"; path_of prefix directory "-id_map.json";
       path_of prefix directory "-class_map.json"; path_of prefix directory "-feats.npy"]
| class_map_unopenable G m :
    loads_graph h (path_of prefix directory "-G.json") G →
    loads_json h (path_of prefix directory "-id_map.json") m →
    missing h (path_of prefix directory "-class_map.json") →
    is_FileNotFoundError (open_error h (path_of prefix directory "-class_map.json")) = false →
    optional_fault h prefix directory
      (open_error h (path_of prefix directory "-class_map.json"))
      [path_of prefix directory "-G.json"; path_of prefix directory "-id_map.json";
       path_of prefix directory "-class_map.json"]
| feats_unopenable G m cm :
    loads_graph h (path_of prefix directory "-G.json") G →
    loads_json h (path_of prefix directory "-id_map.json") m →
    class_map_is h prefix directory cm →
    missing h (path_of prefix directory "-feats.npy") →
    is_FileNotFoundError (open_error h (path_of prefix directory "-feats.npy")) = false →
    optional_fault h prefix directory
      (open_error h (path_of prefix directory "-feats.npy"))
      [path_of prefix directory "-G.json"; path_of prefix directory "-id_map.json";
       path_of prefix directory "-class_map.json"; path_of prefix directory "-feats.npy"]
| walks_unopenable G m cm fm :
    loads_graph h (path_of prefix directory "-G.json") G →
    loads_json h (path_of prefix directory "-id_map.json") m →
    class_map_is h prefix directory cm →
    feats_map_is h prefix directory fm →
    missing h (path_of prefix directory "-walks.txt") →
    is_FileNotFoundError (open_error h (path_of prefix directory "-walks.txt")) = false →
    optional_fault h prefix directory
      (open_error h (path_of prefix directory "-walks.txt"))
      (file_paths prefix directory)
| walks_undecodable G m cm fm bytes :
    loads_graph h (path_of prefix directory "-G.json") G →
    loads_json h (path_of prefix directory "-id_map.json") m →
    class_map_is h prefix directory cm →
    feats_map_is h prefix directory fm →
    files h !! path_of prefix directory "-walks.txt" = Some bytes →
    decode_text h bytes = None →
    optional_fault h prefix directory UnicodeDecodeError (file_paths prefix directory).

End OptionalFiles.

(* ===================================================================== *)
(** ** The small data set with its optional files *)
(* ===================================================================== *)

Module ToyFull.
Import Py GraphIO GraphPy.

(** The text of [toy-class_map.json]: two labels per node. *)
Definition class_map_text : string :=
  "{" +:+ Toy.q "a" +:+ ": [1, 0], " +:+ Toy.q "b" +:+ ": [0, 1], "
  +:+ Toy.q "c" +:+ ": [1, 0]}".

Definition class_map_value : pyobj :=
  PyDict [("a", PyList [PyInt 1; PyInt 0]); ("b", PyList [PyInt 0; PyInt 1]);
          ("c", PyList [PyInt 1; PyInt 0])].

(** The content of [toy-feats.npy], named rather than spelled out, and the
    3 x 2 array it holds. *)
Definition feats_bytes : string := "<npy: 3 x 2 float64>".

Definition feats_value : ndarray :=
  {| nd_shape := [3; 2]; nd_flat := ["0.5"; "1.0"; "0.0"; "2.5"; "1.5"; "0.0"] |}.

Definition full_json_loads (text : string) : exn + pyobj :=
  if bool_decide (text = class_map_text) then inr class_map_value
  else if bool_decide (text = "null") then inr PyNone
  else Toy.toy_json_loads text.

Definition full_npy_loads (bytes : string) : exn + ndarray :=
  if bool_decide (bytes = feats_bytes) then inr feats_value
  else Toy.toy_npy_loads bytes.

Definition host (fs : gmap string string) : Host :=
  {| files := fs;
     open_error := FileNotFoundError;
     decode_text := Some;
     json_loads := full_json_loads;
     node_link_graph := Toy.toy_node_link_graph;
     npy_loads := full_npy_loads |}.

(** Directory [data] with the class map and the features. *)
Definition with_optional : gmap string string :=
  <["data/toy-class_map.json" := class_map_text]>
    (<["data/toy-feats.npy" := feats_bytes]> Toy.mandatory_only).

(** Directory [data] with a class map file that holds [null]. *)
Definition with_null_class_map : gmap string string :=
  <["data/toy-class_map.json" := "null"]> Toy.mandatory_only.

(** Directory [data] with a class map file that is not JSON. *)
Definition with_broken_class_map : gmap string string :=
  <["data/toy-class_map.json" := "a,0,1"]> Toy.mandatory_only.

(** A container that is an instance of none of the three classes. *)
Definition other_data : GraphData :=
  {| data_class := None;
     graph := Toy.G_graph;
     node_map := Toy.id_map_value;
     node_classes := PyNone;
     node_features := None;
     descriptor := {| hd_node_classes := ∅; hd_edge_classes := ∅ |} |}.

End ToyFull.

(* ===================================================================== *)
(** ** A data set whose prefix is long *)
(* ===================================================================== *)

Module LongName.
Import Py GraphIO GraphPy.

(** The longest file name that the file system accepts, in bytes. *)
Definition NAME_MAX : nat := 255.

(** The last component of a path. *)
Fixpoint basename_go (cur s : string) : string :=
  match s with
  | EmptyString => cur
  | String c r =>
    if bool_decide (c = sep) then basename_go EmptyString r
    else basename_go (cur +:+ String c EmptyString) r
  end.

Definition basename (path : string) : string := basename_go EmptyString path.

Definition OSError_ENAMETOOLONG (path : string) : exn :=
  Raise "OSError" ("[Errno 36] File name too long: " +:+ path).

(** What [open] raises in a directory tree that holds no other file: a
    name longer than [NAME_MAX] is refused, any other path names
    nothing. *)
Definition posix_open_error (path : string) : exn :=
  if (NAME_MAX <? String.length (basename path))%nat then OSError_ENAMETOOLONG path
  else FileNotFoundError path.

Fixpoint repeat_char (n : nat) (c : ascii) : string :=
  match n with
  | O => EmptyString
  | S n' => String c (repeat_char n' c)
  end.

(** A prefix of 243 characters: with it [-G.json] and [-id_map.json] give
    names of 250 and 255 characters, [-class_map.json] one of 258. *)
Definition prefix : string := repeat_char 243 "a"%char.

(** Directory [data] with the two mandatory files and nothing else. *)
Definition mandatory_only : gmap string string :=
  {[ path_of prefix "data" "-G.json" := Toy.G_text;
     path_of prefix "data" "-id_map.json" := Toy.id_map_text ]}.

Definition host : Host :=
  {| files := mandatory_only;
     open_error := posix_open_error;
     decode_text := Some;
     json_loads := Toy.toy_json_loads;
     node_link_graph := Toy.toy_node_link_graph;
     npy_loads := Toy.toy_npy_loads |}.

End LongName.

(* ===================================================================== *)
(** ** Properties of the loader *)
(* ===================================================================== *)

Import Py GraphIO GraphPy Dataset OptionalFiles.

(** *** Sequencing and [try] *)

Section Steps.
Context {A B : Type}.

Lemma io_bind_inr (m : io A) (k : A → io B) h log log' a :
  m h log = (log', inr a) → io_bind m k h log = k a h log'.
Proof. unfold io_bind. by intros ->. Qed.

Lemma io_bind_inl (m : io A) (k : A → io B) h log log' e :
  m h log = (log', inl e) → io_bind m k h log = (log', inl e).
Proof. unfold io_bind. by intros ->. Qed.

Lemma try_inr (body handler : io A) h log log' a :
  body h log = (log', inr a) →
  try_except_FileNotFoundError body handler h log = (log', inr a).
Proof. unfold try_except_FileNotFoundError. by intros ->. Qed.

Lemma try_caught (body handler : io A) h log log' e :
  body h log = (log', inl e) → is_FileNotFoundError e = true →
  try_except_FileNotFoundError body handler h log = handler h log'.
Proof. unfold try_except_FileNotFoundError. by intros -> ->. Qed.

Lemma try_passes (body handler : io A) h log log' e :
  body h log = (log', inl e) → is_FileNotFoundError e = false →
  try_except_FileNotFoundError body handler h log = (log', inl e).
Proof. unfold try_except_FileNotFoundError. by intros -> ->. Qed.
End Steps.

(** A [try] whose handler returns never lets a [FileNotFoundError] out. *)
Lemma try_raises_other {A} (body : io A) (v : A) h log log' e :
  try_except_FileNotFoundError body (io_ret v) h log = (log', inl e) →
  is_FileNotFoundError e = false.
Proof.
  unfold try_except_FileNotFoundError, io_ret.
  destruct (body h log) as [log1 [e1|a]]; [|done].
  destruct (is_FileNotFoundError e1) eqn:He1; [done|]. by intros [= _ <-].
Qed.

(** *** What a statement opens *)

Lemma opens_none_ret {A} (a : A) : opens_none (io_ret a).
Proof. by intros h log. Qed.

Lemma opens_none_host {A} (f : Host → exn + A) : opens_none (λ h, lift (f h) h).
Proof. by intros h log. Qed.

Lemma opens_none_read_text bytes : opens_none (read_text bytes).
Proof. by intros h log. Qed.

Lemma opens_one_open_r path : opens_one path (open_r path).
Proof. by intros h log. Qed.

Lemma opens_none_bind {A B} (m : io A) (k : A → io B) :
  opens_none m → (∀ a, opens_none (k a)) → opens_none (io_bind m k).
Proof.
  intros Hm Hk h log. unfold outcome, run, io_bind.
  rewrite (Hm h log), (Hm h []). destruct (outcome m h) as [e|a]; [done|].
  by rewrite (Hk a h log), (Hk a h []).
Qed.

Lemma opens_one_bind {A B} path (m : io A) (k : A → io B) :
  opens_one path m → (∀ a, opens_none (k a)) → opens_one path (io_bind m k).
Proof.
  intros Hm Hk h log. unfold outcome, run, io_bind.
  rewrite (Hm h log), (Hm h []). destruct (outcome m h) as [e|a]; [done|].
  by rewrite (Hk a h (log ++ [path])%list), (Hk a h ([] ++ [path])%list).
Qed.

Lemma opens_one_try {A} path (body : io A) (v : A) :
  opens_one path body → opens_one path (try_except_FileNotFoundError body (io_ret v)).
Proof.
  intros Hb h log. unfold outcome, run, try_except_FileNotFoundError.
  rewrite (Hb h log), (Hb h []). destruct (outcome body h) as [e|a]; [|done].
  by destruct (is_FileNotFoundError e).
Qed.

Lemma opens_one_json_load path : opens_one path (json_load path).
Proof. apply opens_one_bind; [apply opens_one_open_r|]. intros a. apply opens_none_host. Qed.

Lemma opens_one_np_load path : opens_one path (np_load path).
Proof. apply opens_one_bind; [apply opens_one_open_r|]. intros a. apply opens_none_host. Qed.

Lemma opens_one_load_G p d : opens_one (path_of p d "-G.json") (load_G p d).
Proof. apply opens_one_bind; [apply opens_one_json_load|]. intros a. apply opens_none_host. Qed.

Lemma opens_one_load_id_map p d : opens_one (path_of p d "-id_map.json") (load_id_map p d).
Proof. apply opens_one_json_load. Qed.

Lemma opens_one_load_class_map p d :
  opens_one (path_of p d "-class_map.json") (load_class_map p d).
Proof. apply opens_one_try, opens_one_json_load. Qed.

Lemma opens_one_load_feats p d : opens_one (path_of p d "-feats.npy") (load_feats p d).
Proof.
  apply opens_one_try, opens_one_bind; [apply opens_one_np_load|].
  intros a. apply opens_none_ret.
Qed.

Lemma opens_one_load_walks p d : opens_one (path_of p d "-walks.txt") (load_walks p d).
Proof.
  apply opens_one_try, opens_one_bind; [apply opens_one_open_r|].
  intros bytes. apply opens_none_bind; [apply opens_none_read_text|].
  intros text. apply opens_none_ret.
Qed.

(** A statement that opens one path, followed by the rest. *)
Lemma io_bind_opens_one {A B} path (m : io A) (k : A → io B) h log :
  opens_one path m →
  io_bind m k h log
  = match outcome m h with
    | inl e => ((log ++ [path])%list, inl e)
    | inr a => k a h (log ++ [path])%list
    end.
Proof. intros Hm. unfold io_bind. rewrite (Hm h log). by destruct (outcome m h). Qed.

(** *** The loader as a sequence of its five statements *)

Lemma load_files_eq p d :
  load_files p (Some d) =
  (G <~ load_G p d ;;
   id_map <~ load_id_map p d ;;
   class_map <~ load_class_map p d ;;
   feats_map <~ load_feats p d ;;
   walks <~ load_walks p d ;;
   io_ret (MkLocals G id_map class_map feats_map walks)).
Proof. reflexivity. Qed.

Lemma load_files_run p d h :
  run (load_files p (Some d)) h =
  match outcome (load_G p d) h with
  | inl e => (take 1 (file_paths p d), inl e)
  | inr G =>
    match outcome (load_id_map p d) h with
    | inl e => (take 2 (file_paths p d), inl e)
    | inr m =>
      match outcome (load_class_map p d) h with
      | inl e => (take 3 (file_paths p d), inl e)
      | inr cm =>
        match outcome (load_feats p d) h with
        | inl e => (take 4 (file_paths p d), inl e)
        | inr fm =>
          match outcome (load_walks p d) h with
          | inl e => (file_paths p d, inl e)
          | inr w => (file_paths p d, inr (MkLocals G m cm fm w))
          end
        end
      end
    end
  end.
Proof.
  rewrite load_files_eq. unfold run.
  rewrite (io_bind_opens_one _ _ _ _ _ (opens_one_load_G p d)).
  destruct (outcome (load_G p d) h) as [e|G]; [done|].
  rewrite (io_bind_opens_one _ _ _ _ _ (opens_one_load_id_map p d)).
  destruct (outcome (load_id_map p d) h) as [e|m]; [done|].
  rewrite (io_bind_opens_one _ _ _ _ _ (opens_one_load_class_map p d)).
  destruct (outcome (load_class_map p d) h) as [e|cm]; [done|].
  rewrite (io_bind_opens_one _ _ _ _ _ (opens_one_load_feats p d)).
  destruct (outcome (load_feats p d) h) as [e|fm]; [done|].
  rewrite (io_bind_opens_one _ _ _ _ _ (opens_one_load_walks p d)).
  by destruct (outcome (load_walks p d) h) as [e|w].
Qed.

Lemma from_graphsage_of_locals infer p d h log l :
  run (load_files p (Some d)) h = (log, inr l) →
  run (from_graphsage infer p (Some d)) h
  = (log, inr (__init__ (GraphSAGE_new infer (l_G l) (l_id_map l)
                           (l_class_map l) (l_feats_map l)))).
Proof.
  unfold run, from_graphsage. intros Hl.
  by rewrite (io_bind_inr _ _ _ _ _ _ Hl).
Qed.

Lemma from_graphsage_of_error infer p d h log e :
  run (load_files p (Some d)) h = (log, inl e) →
  run (from_graphsage infer p (Some d)) h = (log, inl e).
Proof.
  unfold run, from_graphsage. intros Hl.
  by rewrite (io_bind_inl _ _ _ _ _ _ Hl).
Qed.

(** The whole of [from_graphsage] with a directory: the five statements
    run in order, the first exception ends the call at the file that
    raised it, and the graph is built from the first four values. *)
Lemma from_graphsage_run infer p d h :
  run (from_graphsage infer p (Some d)) h =
  match outcome (load_G p d) h with
  | inl e => (take 1 (file_paths p d), inl e)
  | inr G =>
    match outcome (load_id_map p d) h with
    | inl e => (take 2 (file_paths p d), inl e)
    | inr m =>
      match outcome (load_class_map p d) h with
      | inl e => (take 3 (file_paths p d), inl e)
      | inr cm =>
        match outcome (load_feats p d) h with
        | inl e => (take 4 (file_paths p d), inl e)
        | inr fm =>
          match outcome (load_walks p d) h with
          | inl e => (file_paths p d, inl e)
          | inr w => (file_paths p d, inr (__init__ (GraphSAGE_new infer G m cm fm)))
          end
        end
      end
    end
  end.
Proof.
  pose proof (load_files_run p d h) as Hl.
  destruct (outcome (load_G p d) h) as [e|G];
    [by apply from_graphsage_of_error|].
  destruct (outcome (load_id_map p d) h) as [e|m];
    [by apply from_graphsage_of_error|].
  destruct (outcome (load_class_map p d) h) as [e|cm];
    [by apply from_graphsage_of_error|].
  destruct (outcome (load_feats p d) h) as [e|fm];
    [by apply from_graphsage_of_error|].
  destruct (outcome (load_walks p d) h) as [e|w];
    [by apply from_graphsage_of_error|].
  by rewrite (from_graphsage_of_locals infer _ _ _ _ _ Hl).
Qed.

(** *** The outcome of each statement, read off the host *)

Ltac statement :=
  unfold outcome, run, load_G, load_id_map, load_class_map, load_feats, load_walks,
    json_load, np_load, try_except_FileNotFoundError, io_bind, open_r, read_text,
    lift, io_ret; simpl.

Lemma outcome_load_G p d h :
  outcome (load_G p d) h
  = match files h !! path_of p d "-G.json" with
    | Some bytes =>
      match json_loads h bytes with
      | inr j => node_link_graph h j
      | inl e => inl e
      end
    | None => inl (open_error h (path_of p d "-G.json"))
    end.
Proof.
  statement. destruct (files h !! path_of p d "-G.json") as [bytes|]; [|done].
  by destruct (json_loads h bytes).
Qed.

Lemma outcome_load_id_map p d h :
  outcome (load_id_map p d) h
  = match files h !! path_of p d "-id_map.json" with
    | Some bytes => json_loads h bytes
    | None => inl (open_error h (path_of p d "-id_map.json"))
    end.
Proof.
  statement. by destruct (files h !! path_of p d "-id_map.json") as [bytes|].
Qed.

Lemma outcome_load_class_map p d h :
  outcome (load_class_map p d) h
  = match files h !! path_of p d "-class_map.json" with
    | Some bytes =>
      match json_loads h bytes with
      | inr j => inr j
      | inl e => caught PyNone e
      end
    | None => caught PyNone (open_error h (path_of p d "-class_map.json"))
    end.
Proof.
  statement. unfold caught.
  destruct (files h !! path_of p d "-class_map.json") as [bytes|]; simpl.
  - destruct (json_loads h bytes) as [e|j]; [|done]. by destruct (is_FileNotFoundError e).
  - by destruct (is_FileNotFoundError _).
Qed.

Lemma outcome_load_feats p d h :
  outcome (load_feats p d) h
  = match files h !! path_of p d "-feats.npy" with
    | Some bytes =>
      match npy_loads h bytes with
      | inr a => inr (Some a)
      | inl e => caught None e
      end
    | None => caught None (open_error h (path_of p d "-feats.npy"))
    end.
Proof.
  statement. unfold caught.
  destruct (files h !! path_of p d "-feats.npy") as [bytes|]; simpl.
  - destruct (npy_loads h bytes) as [e|a]; [|done]. by destruct (is_FileNotFoundError e).
  - by destruct (is_FileNotFoundError _).
Qed.

Lemma outcome_load_walks p d h :
  outcome (load_walks p d) h
  = match files h !! path_of p d "-walks.txt" with
    | Some bytes =>
      match decode_text h bytes with
      | Some text => inr (Some (file_lines text))
      | None => inl UnicodeDecodeError
      end
    | None => caught None (open_error h (path_of p d "-walks.txt"))
    end.
Proof.
  statement. unfold caught.
  destruct (files h !! path_of p d "-walks.txt") as [bytes|]; simpl.
  - by destruct (decode_text h bytes).
  - by destruct (is_FileNotFoundError _).
Qed.

Lemma caught_not_FileNotFoundError {A} (v : A) e e' :
  caught v e = inl e' → is_FileNotFoundError e' = false.
Proof. unfold caught. destruct (is_FileNotFoundError e) eqn:He; [done|]. by intros [= <-]. Qed.

Section Outcomes.
Context (p d : string) (h : Host).

Lemma load_G_ok G :
  loads_graph h (path_of p d "-G.json") G → outcome (load_G p d) h = inr G.
Proof.
  intros (j & (bytes & Hf & Hj) & HG). by rewrite outcome_load_G, Hf, Hj.
Qed.

Lemma load_G_inv G :
  outcome (load_G p d) h = inr G → loads_graph h (path_of p d "-G.json") G.
Proof.
  rewrite outcome_load_G.
  destruct (files h !! path_of p d "-G.json") as [bytes|] eqn:Hf; [|done].
  destruct (json_loads h bytes) as [e|j] eqn:Hj; [done|].
  intros HG. exists j. split; [by exists bytes|done].
Qed.

Lemma load_id_map_ok m :
  loads_json h (path_of p d "-id_map.json") m → outcome (load_id_map p d) h = inr m.
Proof. intros (bytes & Hf & Hj). by rewrite outcome_load_id_map, Hf. Qed.

Lemma load_id_map_inv m :
  outcome (load_id_map p d) h = inr m → loads_json h (path_of p d "-id_map.json") m.
Proof.
  rewrite outcome_load_id_map.
  destruct (files h !! path_of p d "-id_map.json") as [bytes|] eqn:Hf; [|done].
  intros Hj. by exists bytes.
Qed.

Lemma load_class_map_ok cm :
  class_map_is h p d cm → outcome (load_class_map p d) h = inr cm.
Proof.
  rewrite outcome_load_class_map.
  intros [[[Hf He] ->]|(bytes & Hf & Hj)].
  - rewrite Hf. unfold caught. by rewrite He.
  - by rewrite Hf, Hj.
Qed.

Lemma load_feats_ok fm :
  feats_map_is h p d fm → outcome (load_feats p d) h = inr fm.
Proof.
  rewrite outcome_load_feats.
  intros [[[Hf He] ->]|(a & (bytes & Hf & Ha) & ->)].
  - rewrite Hf. unfold caught. by rewrite He.
  - by rewrite Hf, Ha.
Qed.

Lemma load_walks_ok w :
  walks_is h p d w → outcome (load_walks p d) h = inr w.
Proof.
  rewrite outcome_load_walks.
  intros [[[Hf He] ->]|(text & (bytes & Hf & Ht) & ->)].
  - rewrite Hf. unfold caught. by rewrite He.
  - by rewrite Hf, Ht.
Qed.

(** The exception of an optional statement is never a
    [FileNotFoundError]. *)
Lemma load_class_map_raises e :
  outcome (load_class_map p d) h = inl e → is_FileNotFoundError e = false.
Proof.
  rewrite outcome_load_class_map.
  destruct (files h !! _) as [bytes|]; [|apply caught_not_FileNotFoundError].
  destruct (json_loads h bytes); [apply caught_not_FileNotFoundError|done].
Qed.

Lemma load_feats_raises e :
  outcome (load_feats p d) h = inl e → is_FileNotFoundError e = false.
Proof.
  rewrite outcome_load_feats.
  destruct (files h !! _) as [bytes|]; [|apply caught_not_FileNotFoundError].
  destruct (npy_loads h bytes); [apply caught_not_FileNotFoundError|done].
Qed.

Lemma load_walks_raises e :
  outcome (load_walks p d) h = inl e → is_FileNotFoundError e = false.
Proof.
  rewrite outcome_load_walks.
  destruct (files h !! _) as [bytes|]; [|apply caught_not_FileNotFoundError].
  destruct (decode_text h bytes); [done|]. by intros [= <-].
Qed.
End Outcomes.

(** The outcome of a statement depends on the host only through the
    decoders and the file at its path. *)
Section Hosts.
Context (p d : string) (h h' : Host).

Lemma load_G_hosts :
  agree_at p d h h' "-G.json" → json_loads h = json_loads h' →
  node_link_graph h = node_link_graph h' →
  outcome (load_G p d) h = outcome (load_G p d) h'.
Proof. intros [Hf He] Hj Hg. by rewrite !outcome_load_G, Hf, He, Hj, Hg. Qed.

Lemma load_id_map_hosts :
  agree_at p d h h' "-id_map.json" → json_loads h = json_loads h' →
  outcome (load_id_map p d) h = outcome (load_id_map p d) h'.
Proof. intros [Hf He] Hj. by rewrite !outcome_load_id_map, Hf, He, Hj. Qed.

Lemma load_class_map_hosts :
  agree_at p d h h' "-class_map.json" → json_loads h = json_loads h' →
  outcome (load_class_map p d) h = outcome (load_class_map p d) h'.
Proof. intros [Hf He] Hj. by rewrite !outcome_load_class_map, Hf, He, Hj. Qed.

Lemma load_feats_hosts :
  agree_at p d h h' "-feats.npy" → npy_loads h = npy_loads h' →
  outcome (load_feats p d) h = outcome (load_feats p d) h'.
Proof. intros [Hf He] Hn. by rewrite !outcome_load_feats, Hf, He, Hn. Qed.

Lemma load_walks_hosts :
  agree_at p d h h' "-walks.txt" → decode_text h = decode_text h' →
  outcome (load_walks p d) h = outcome (load_walks p d) h'.
Proof. intros [Hf He] Hd. by rewrite !outcome_load_walks, Hf, He, Hd. Qed.
End Hosts.

(** *** Loads that return *)

Section Loader.
Context (infer : NxGraph → pyobj → pyobj → option ndarray → HeterogeneityDescriptor).
Context (p d : string) (h : Host).

Lemma from_graphsage_all_ok G m cm fm w :
  loads_graph h (path_of p d "-G.json") G →
  loads_json h (path_of p d "-id_map.json") m →
  class_map_is h p d cm → feats_map_is h p d fm → walks_is h p d w →
  run (from_graphsage infer p (Some d)) h
  = (file_paths p d, inr (__init__ (GraphSAGE_new infer G m cm fm))).
Proof.
  intros HG Hm Hc Hf Hw.
  by rewrite from_graphsage_run, (load_G_ok _ _ _ _ HG), (load_id_map_ok _ _ _ _ Hm),
    (load_class_map_ok _ _ _ _ Hc), (load_feats_ok _ _ _ _ Hf), (load_walks_ok _ _ _ _ Hw).
Qed.

(** C1, as the code has it. When [{prefix}-G.json] and
    [{prefix}-id_map.json] load, and each of the three optional files
    either is absent, in that opening it raises [FileNotFoundError], or
    is there and can be read, [from_graphsage] returns a graph: the graph
    and the id map are the ones loaded, an absent class map leaves
    [node_classes] at [None] and an absent feature file leaves
    [node_features] at [None]. *)
Theorem from_graphsage_optional_absent G m :
  loads_graph h (path_of p d "-G.json") G →
  loads_json h (path_of p d "-id_map.json") m →
  (absent h (path_of p d "-class_map.json") ∨ ∃ j, loads_json h (path_of p d "-class_map.json") j) →
  (absent h (path_of p d "-feats.npy") ∨ ∃ a, loads_npy h (path_of p d "-feats.npy") a) →
  (absent h (path_of p d "-walks.txt") ∨ ∃ text, reads_text h (path_of p d "-walks.txt") text) →
  ∃ g,
    outcome (from_graphsage infer p (Some d)) h = inr g
    ∧ graph (_data g) = G
    ∧ node_map (_data g) = m
    ∧ (absent h (path_of p d "-class_map.json") → node_classes (_data g) = PyNone)
    ∧ (absent h (path_of p d "-feats.npy") → node_features (_data g) = None).
Proof.
  intros HG Hm Hc Hf Hw.
  assert (∃ cm, class_map_is h p d cm
                ∧ (absent h (path_of p d "-class_map.json") → cm = PyNone))
    as (cm & Hcm & Hcm').
  { destruct Hc as [Ha|(j & bytes & Hb & Hj)].
    - exists PyNone. split; [by left|done].
    - exists j. split; [right; by exists bytes|]. intros [Ha _]. congruence. }
  assert (∃ fm, feats_map_is h p d fm
                ∧ (absent h (path_of p d "-feats.npy") → fm = None))
    as (fm & Hfm & Hfm').
  { destruct Hf as [Ha|(a & bytes & Hb & Hn)].
    - exists None. split; [by left|done].
    - exists (Some a). split; [right; exists a; split; [by exists bytes|done]|].
      intros [Ha _]. congruence. }
  assert (∃ w, walks_is h p d w) as (w & Hwalks).
  { destruct Hw as [Ha|(text & Ht)].
    - exists None. by left.
    - exists (Some (file_lines text)). right. by exists text. }
  exists (__init__ (GraphSAGE_new infer G m cm fm)).
  unfold outcome. rewrite (from_graphsage_all_ok G m cm fm w HG Hm Hcm Hfm Hwalks).
  by simpl.
Qed.
End Loader.

Lemma toy_loads_graph :
  loads_graph (Toy.host Toy.mandatory_only) (path_of "toy" "data" "-G.json") Toy.G_graph.
Proof.
  exists Toy.G_value. split; [|reflexivity].
  exists Toy.G_text. split; vm_compute; reflexivity.
Defined.

Lemma toy_loads_id_map :
  loads_json (Toy.host Toy.mandatory_only) (path_of "toy" "data" "-id_map.json")
    Toy.id_map_value.
Proof. exists Toy.id_map_text. split; vm_compute; reflexivity. Defined.

Lemma toy_absent fs s :
  fs !! path_of "toy" "data" s = None →
  absent (Toy.host fs) (path_of "toy" "data" s).
Proof. intros Hfs. split; [exact Hfs|reflexivity]. Defined.

Lemma from_graphsage_optional_absent_witness :
  ∃ g,
    outcome (from_graphsage Toy.homogeneous "toy" (Some "data"))
      (Toy.host Toy.mandatory_only) = inr g
    ∧ graph (_data g) = Toy.G_graph
    ∧ node_map (_data g) = Toy.id_map_value
    ∧ (absent (Toy.host Toy.mandatory_only) (path_of "toy" "data" "-class_map.json")
       → node_classes (_data g) = PyNone)
    ∧ (absent (Toy.host Toy.mandatory_only) (path_of "toy" "data" "-feats.npy")
       → node_features (_data g) = None).
Proof.
  apply (from_graphsage_optional_absent Toy.homogeneous "toy" "data"
           (Toy.host Toy.mandatory_only) Toy.G_graph Toy.id_map_value).
  - exact toy_loads_graph.
  - exact toy_loads_id_map.
  - left. apply toy_absent. vm_compute. reflexivity.
  - left. apply toy_absent. vm_compute. reflexivity.
  - left. apply toy_absent. vm_compute. reflexivity.
Defined.

(** C1 as stated fails: with a prefix of 243 characters the two
    mandatory files load and none of the three optional files exists,
    yet opening the class map raises [OSError] (its name has 258
    characters), which the [try] does not catch: no graph is returned. *)
Lemma from_graphsage_long_prefix_fails :
  loads_graph LongName.host (path_of LongName.prefix "data" "-G.json") Toy.G_graph
  ∧ loads_json LongName.host (path_of LongName.prefix "data" "-id_map.json")
      Toy.id_map_value
  ∧ missing LongName.host (path_of LongName.prefix "data" "-class_map.json")
  ∧ missing LongName.host (path_of LongName.prefix "data" "-feats.npy")
  ∧ missing LongName.host (path_of LongName.prefix "data" "-walks.txt")
  ∧ ∃ e, outcome (from_graphsage Toy.homogeneous LongName.prefix (Some "data"))
           LongName.host = inl e
         ∧ exn_class e = "OSError".
Proof.
  split.
  { exists Toy.G_value. split; [|reflexivity].
    exists Toy.G_text. split; vm_compute; reflexivity. }
  split.
  { exists Toy.id_map_text. split; vm_compute; reflexivity. }
  split; [vm_compute; reflexivity|]. split; [vm_compute; reflexivity|].
  split; [vm_compute; reflexivity|].
  eexists. split; vm_compute; reflexivity.
Qed.

(** The scenario of the design document: the loaded graph has the three
    nodes and two edges of [toy-G.json], and no features. *)
Example toy_graph_loaded :
  run (from_graphsage Toy.homogeneous "toy" (Some "data")) (Toy.host Toy.mandatory_only)
  = (file_paths "toy" "data", inr Toy.toy_graph)
  ∧ length (get_nodes Toy.toy_graph) = 3
  ∧ length (get_edges Toy.toy_graph) = 2
  ∧ node_features (_data Toy.toy_graph) = None
  ∧ format Toy.toy_graph = Some "graphsage".
Proof. vm_compute. repeat split. Qed.

(** *** Mandatory files that fail *)

Section MandatoryFiles.
Context (infer : NxGraph → pyobj → pyobj → option ndarray → HeterogeneityDescriptor).
Context (p d : string) (h : Host).

(** C2, as the code has it. When [{prefix}-G.json] or
    [{prefix}-id_map.json] cannot be opened or cannot be decoded,
    [from_graphsage] raises the exception of the failing step as it is
    (the one [open] raises for that path, [FileNotFoundError] when the
    path names nothing, or the decoder's own), opens nothing after the
    failing file, and returns no graph. *)
Theorem from_graphsage_mandatory_fault e log :
  mandatory_fault h p d e log →
  run (from_graphsage infer p (Some d)) h = (log, inl e)
  ∧ log `prefix_of` [path_of p d "-G.json"; path_of p d "-id_map.json"]
  ∧ ∀ g, outcome (from_graphsage infer p (Some d)) h ≠ inr g.
Proof.
  intros Hfault.
  assert (run (from_graphsage infer p (Some d)) h = (log, inl e)) as Hrun.
  { rewrite from_graphsage_run.
    destruct Hfault as [pG Ha|e pG (bytes & Hf & Hj)|j e pG (bytes & Hf & Hj) He
                       |G pG pM HG Ha|G e pG pM HG (bytes & Hf & Hj)];
      subst pG; try subst pM.
    - rewrite outcome_load_G. unfold missing in Ha. by rewrite Ha.
    - by rewrite outcome_load_G, Hf, Hj.
    - by rewrite outcome_load_G, Hf, Hj, He.
    - rewrite (load_G_ok _ _ _ _ HG), outcome_load_id_map.
      unfold missing in Ha. by rewrite Ha.
    - by rewrite (load_G_ok _ _ _ _ HG), outcome_load_id_map, Hf, Hj. }
  split; [done|]. split.
  - destruct Hfault; eexists; reflexivity.
  - intros g. unfold outcome. by rewrite Hrun.
Qed.

(** C10. Without a directory the first [os.path.join] raises
    [TypeError]: nothing has been opened, and no graph is returned,
    whatever the prefix and whatever the files are. *)
Theorem from_graphsage_no_directory :
  run (from_graphsage infer p None) h
  = ([], inl (TypeError "expected str, bytes or os.PathLike object, not NoneType")).
Proof. reflexivity. Qed.
End MandatoryFiles.

Lemma from_graphsage_mandatory_fault_witness :
  run (from_graphsage Toy.homogeneous "toy" (Some "data")) (Toy.host ∅)
  = (["data/toy-G.json"], inl (FileNotFoundError "data/toy-G.json"))
  ∧ ["data/toy-G.json"]
      `prefix_of` [path_of "toy" "data" "-G.json"; path_of "toy" "data" "-id_map.json"]
  ∧ ∀ g, outcome (from_graphsage Toy.homogeneous "toy" (Some "data")) (Toy.host ∅) ≠ inr g.
Proof.
  apply (from_graphsage_mandatory_fault Toy.homogeneous "toy" "data" (Toy.host ∅)
           (FileNotFoundError "data/toy-G.json") ["data/toy-G.json"]).
  apply (G_missing (Toy.host ∅) "toy" "data"). vm_compute. reflexivity.
Defined.

(** C2 as stated fails: with [toy-G.json] missing the exception raised is
    [FileNotFoundError], and its class is not [MalformedSourceError]. *)
Lemma from_graphsage_missing_G_is_FileNotFoundError :
  mandatory_fault (Toy.host ∅) "toy" "data"
    (FileNotFoundError "data/toy-G.json") ["data/toy-G.json"]
  ∧ ∃ e, outcome (from_graphsage Toy.homogeneous "toy" (Some "data")) (Toy.host ∅) = inl e
         ∧ exn_class e = "FileNotFoundError"
         ∧ exn_class e ≠ "MalformedSourceError".
Proof.
  split.
  - apply (G_missing (Toy.host ∅) "toy" "data"). vm_compute. reflexivity.
  - exists (FileNotFoundError "data/toy-G.json"). repeat split. discriminate.
Qed.

(** A directory argument that names a regular file: [open] raises
    [NotADirectoryError], and that is the exception of the call. *)
Example from_graphsage_directory_is_a_file :
  let h := {| files := {[ "data" := "not a directory" ]};
              open_error := λ path, Raise "NotADirectoryError" path;
              decode_text := Some;
              json_loads := Toy.toy_json_loads;
              node_link_graph := Toy.toy_node_link_graph;
              npy_loads := Toy.toy_npy_loads |} in
  run (from_graphsage Toy.homogeneous "toy" (Some "data")) h
  = (["data/toy-G.json"], inl (Raise "NotADirectoryError" "data/toy-G.json")).
Proof. vm_compute. reflexivity. Qed.

(** *** Which files are opened *)

Section OpenedFiles.
Context (infer : NxGraph → pyobj → pyobj → option ndarray → HeterogeneityDescriptor).
Context (p d : string) (h : Host).

(** C4, as the code has it. With a directory, [from_graphsage] opens
    only paths among the five [join(directory, prefix + suffix)], in the
    order [-G.json], [-id_map.json], [-class_map.json], [-feats.npy],
    [-walks.txt]. When it returns a graph it has opened exactly those
    five, once each. When it raises, the exception is that of the first
    of the five statements that raises, the file of that statement is
    the last one opened, and the files after it are not opened. *)
Theorem from_graphsage_opened :
  opened (from_graphsage infer p (Some d)) h `prefix_of` file_paths p d
  ∧ (∀ g, outcome (from_graphsage infer p (Some d)) h = inr g →
          opened (from_graphsage infer p (Some d)) h = file_paths p d)
  ∧ (∀ e, outcome (from_graphsage infer p (Some d)) h = inl e →
          ∃ k, fails_at h p d k e
               ∧ opened (from_graphsage infer p (Some d)) h = take (S k) (file_paths p d)).
Proof.
  unfold opened, outcome at 1 2, fails_at, load_outcomes, raised.
  rewrite from_graphsage_run.
  destruct (outcome (load_G p d) h) as [e1|G] eqn:E1.
  { split; [by eexists|]. split; [done|]. intros e [= <-]. exists 0.
    split; [split; [done|lia]|done]. }
  destruct (outcome (load_id_map p d) h) as [e2|m] eqn:E2.
  { split; [by eexists|]. split; [done|]. intros e [= <-]. exists 1.
    split; [split; [done|]|done]. intros [|j] Hj; [done|lia]. }
  destruct (outcome (load_class_map p d) h) as [e3|cm] eqn:E3.
  { split; [by eexists|]. split; [done|]. intros e [= <-]. exists 2.
    split; [split; [done|]|done]. intros [|[|j]] Hj; [done|done|lia]. }
  destruct (outcome (load_feats p d) h) as [e4|fm] eqn:E4.
  { split; [by eexists|]. split; [done|]. intros e [= <-]. exists 3.
    split; [split; [done|]|done]. intros [|[|[|j]]] Hj; [done|done|done|lia]. }
  destruct (outcome (load_walks p d) h) as [e5|w] eqn:E5.
  { split; [by exists []|]. split; [done|]. intros e [= <-]. exists 4.
    split; [split; [done|]|done]. intros [|[|[|[|j]]]] Hj; [done|done|done|done|lia]. }
  split; [by exists []|]. split; [done|]. done.
Qed.
End OpenedFiles.

Lemma from_graphsage_opened_witness :
  opened (from_graphsage Toy.homogeneous "toy" (Some "data")) (Toy.host Toy.mandatory_only)
  = file_paths "toy" "data".
Proof.
  apply (from_graphsage_opened Toy.homogeneous "toy" "data" (Toy.host Toy.mandatory_only))
    with (g := Toy.toy_graph).
  vm_compute. reflexivity.
Defined.

(** C4 as stated fails: when [toy-G.json] is missing, the only path
    opened is that of [toy-G.json]; the other four are never tried. *)
Lemma from_graphsage_missing_G_opens_one :
  opened (from_graphsage Toy.homogeneous "toy" (Some "data")) (Toy.host ∅)
  = ["data/toy-G.json"]
  ∧ opened (from_graphsage Toy.homogeneous "toy" (Some "data")) (Toy.host ∅)
    ≠ file_paths "toy" "data".
Proof. split; [reflexivity|]. vm_compute. discriminate. Qed.

(** *** Strings *)



Lemma append_cons c s t : String c s +:+ t = String c (s +:+ t).
Proof. reflexivity. Qed.

Lemma append_assoc s t u : (s +:+ t) +:+ u = s +:+ (t +:+ u).
Proof.
  induction s as [|c s IH]; [done|].
  rewrite !append_cons. by rewrite IH.
Qed.




(** *** The five paths are distinct *)

Lemma startswith_sep_app p s1 s2 :
  startswith_sep s1 = false → startswith_sep s2 = false →
  startswith_sep (p +:+ s1) = startswith_sep (p +:+ s2).
Proof.
  intros H1 H2. destruct p as [|c p]; [|reflexivity].
  change (startswith_sep s1 = startswith_sep s2). congruence.
Qed.

Lemma join_inj d b1 b2 :
  startswith_sep b1 = startswith_sep b2 → join d b1 = join d b2 → b1 = b2.
Proof.
  unfold join. intros <-. destruct (startswith_sep b1); [done|].
  destruct (is_empty d || endswith_sep d); intros Heq.
  - by apply (inj (String.app d)) in Heq.
  - apply (inj (String.app d)) in Heq. by apply (inj (String.app "/")) in Heq.
Qed.

Lemma path_of_inj p d s1 s2 :
  startswith_sep s1 = false → startswith_sep s2 = false →
  path_of p d s1 = path_of p d s2 → s1 = s2.
Proof.
  intros H1 H2 Heq. unfold path_of in Heq.
  apply join_inj in Heq; [|by apply startswith_sep_app].
  by apply (inj (String.app p)) in Heq.
Qed.

Lemma path_of_ne p d s1 s2 :
  startswith_sep s1 = false → startswith_sep s2 = false → s1 ≠ s2 →
  path_of p d s1 ≠ path_of p d s2.
Proof. intros H1 H2 Hne Heq. by apply Hne, (path_of_inj p d). Qed.

(** *** The walks file does not reach the graph *)

Lemma same_but_at_with_file h path content :
  same_but_at path h (with_file h path content).
Proof.
  unfold same_but_at. split_and!; try done.
  intros other Hne. split; [|done]. simpl. by rewrite lookup_insert_ne.
Qed.

Lemma same_but_at_without_file h path :
  same_but_at path h (without_file h path).
Proof.
  unfold same_but_at. split_and!; try done.
  intros other Hne. split; simpl.
  - by rewrite lookup_delete_ne.
  - by rewrite bool_decide_eq_false_2.
Qed.

Lemma same_but_at_agree p d h h' s s' :
  same_but_at (path_of p d s) h h' →
  startswith_sep s = false → startswith_sep s' = false → s' ≠ s →
  agree_at p d h h' s'.
Proof.
  intros (_ & _ & _ & _ & Hfiles) Hs Hs' Hne.
  apply Hfiles. by apply path_of_ne.
Qed.

Section Walks.
Context (infer : NxGraph → pyobj → pyobj → option ndarray → HeterogeneityDescriptor).
Context (p d : string).

(** C3, the part that the code misses. Two directories that differ only
    in [{prefix}-walks.txt] (its content, or whether it is there at all),
    in each of which that file is absent or can be read, give the same
    result: the lines read into the local [walks] are not part of the
    graph that [from_graphsage] returns. *)
Theorem from_graphsage_drops_walks h h' w w' :
  same_but_at (path_of p d "-walks.txt") h h' →
  walks_is h p d w → walks_is h' p d w' →
  run (from_graphsage infer p (Some d)) h = run (from_graphsage infer p (Some d)) h'.
Proof.
  intros Hsame Hw Hw'.
  pose proof Hsame as (Hj & Hg & Hn & Hd & _).
  rewrite !from_graphsage_run.
  rewrite <- (load_G_hosts p d h h'); [|by eapply same_but_at_agree|done..].
  rewrite <- (load_id_map_hosts p d h h'); [|by eapply same_but_at_agree|done..].
  rewrite <- (load_class_map_hosts p d h h'); [|by eapply same_but_at_agree|done..].
  rewrite <- (load_feats_hosts p d h h'); [|by eapply same_but_at_agree|done..].
  by rewrite (load_walks_ok _ _ _ _ Hw), (load_walks_ok _ _ _ _ Hw').
Qed.
End Walks.

Lemma from_graphsage_drops_walks_witness :
  run (from_graphsage Toy.homogeneous "toy" (Some "data")) (Toy.host Toy.mandatory_only)
  = run (from_graphsage Toy.homogeneous "toy" (Some "data")) (Toy.host Toy.with_walks).
Proof.
  apply (from_graphsage_drops_walks Toy.homogeneous "toy" "data"
           (Toy.host Toy.mandatory_only) (Toy.host Toy.with_walks)
           None (Some (file_lines Toy.walks_text))).
  - unfold same_but_at. split_and!; try reflexivity.
    intros other Hne. split; [|reflexivity]. simpl. unfold Toy.with_walks.
    rewrite lookup_insert_ne; [reflexivity|]. intros Heq. apply Hne. rewrite <- Heq.
    vm_compute. reflexivity.
  - left. split; [|reflexivity]. apply toy_absent. vm_compute. reflexivity.
  - right. exists Toy.walks_text. split; [|reflexivity].
    exists Toy.walks_text. split; vm_compute; reflexivity.
Defined.

(** The walks file of [Toy.with_walks] is read, line by line and without
    regard to the order of its pairs, into the local [walks]; the graph
    returned is the one returned without the file. *)
Example toy_walks_read_then_dropped :
  (∃ l, outcome (load_files "toy" (Some "data")) (Toy.host Toy.with_walks) = inr l
        ∧ l_walks l = Some ["1 2" +:+ String LF EmptyString;
                            "0 1" +:+ String LF EmptyString])
  ∧ outcome (from_graphsage Toy.homogeneous "toy" (Some "data")) (Toy.host Toy.with_walks)
    = inr Toy.toy_graph
  ∧ outcome (from_graphsage Toy.homogeneous "toy" (Some "data"))
      (Toy.host Toy.mandatory_only)
    = inr Toy.toy_graph.
Proof. split; [eexists; split|split]; vm_compute; reflexivity. Qed.

(* ===================================================================== *)
(** ** Properties of the accessors and of the other constructors *)
(* ===================================================================== *)

(** *** Dense bijections *)

(** What the definition says of the indices: none occurs twice, and they
    are exactly the integers from 0 up to the number of ids. *)
Lemma is_dense_bijection_indices m ids idx :
  IdentityMap.entries m = Some (ids, idx) →
  IdentityMap.is_dense_bijection m →
  length idx = length ids
  ∧ NoDup ids ∧ NoDup idx
  ∧ ∀ z : Z, z ∈ idx ↔ (0 ≤ z < Z.of_nat (length ids))%Z.
Proof.
  intros He (ids' & idx' & He' & Hids & Hp).
  rewrite He in He'. injection He' as <- <-.
  split; [by rewrite Hp, length_fmap, length_seq|]. split; [done|]. split.
  - rewrite Hp. apply (NoDup_fmap_2 _), NoDup_seq.
  - intros z. rewrite Hp, list_elem_of_fmap. split.
    + intros (i & -> & Hi%elem_of_seq). lia.
    + intros Hz. exists (Z.to_nat z). split; [lia|]. apply elem_of_seq. lia.
Qed.

Lemma toy_id_map_dense : IdentityMap.is_dense_bijection Toy.id_map_value.
Proof.
  exists ["a"; "b"; "c"], [0%Z; 1%Z; 2%Z]. split; [reflexivity|]. split; [|reflexivity].
  apply (bool_decide_unpack _). vm_compute. reflexivity.
Qed.

Lemma None_not_dense : ¬ IdentityMap.is_dense_bijection PyNone.
Proof. intros (ids & idx & He & _). discriminate He. Qed.

(** C7, as the code has it. The property [id_map] is declared abstract
    and its body is [pass]: for every graph, those that [from_graphsage]
    returns included, it returns [None]. No map between external ids and
    indices is exposed through it, hence no bijection. *)
Theorem id_map_exposes_nothing (self : Graph) :
  id_map self = PyNone
  ∧ IdentityMap.entries (id_map self) = None
  ∧ ¬ IdentityMap.is_dense_bijection (id_map self).
Proof. split; [done|]. split; [done|]. apply None_not_dense. Qed.

(** C7 as stated fails: the toy data set, whose id map file is a
    bijection between [a], [b], [c] and 0, 1, 2, loads, and the [id_map]
    of the graph returned is [None], which is no bijection. *)
Lemma from_graphsage_id_map_is_None :
  IdentityMap.is_dense_bijection Toy.id_map_value
  ∧ loads_json (Toy.host Toy.mandatory_only) (path_of "toy" "data" "-id_map.json")
      Toy.id_map_value
  ∧ ∃ g, outcome (from_graphsage Toy.homogeneous "toy" (Some "data"))
           (Toy.host Toy.mandatory_only) = inr g
         ∧ id_map g = PyNone
         ∧ ¬ IdentityMap.is_dense_bijection (id_map g).
Proof.
  split; [apply toy_id_map_dense|]. split; [apply toy_loads_id_map|].
  eexists. split; [vm_compute; reflexivity|]. split; [done|]. apply None_not_dense.
Qed.

(** C8, as the code has it. [add_node] is declared abstract and its body
    is [pass]: for every graph and every argument, a duplicate or a new
    node, it raises nothing, returns [None] and leaves the graph (nodes,
    edges, maps and descriptor) as it was; no index is assigned and no
    external id is registered. *)
Theorem add_node_does_nothing (self : Graph) (nodes : pyobj) :
  add_node self nodes = (self, inr PyNone).
Proof. reflexivity. Qed.

Lemma toy_a_registered : IdentityMap.registered (node_map (_data Toy.toy_graph)) "a".
Proof.
  exists ["a"; "b"; "c"], [0%Z; 1%Z; 2%Z]. split; [reflexivity|].
  apply list_elem_of_here.
Qed.

(** C8 as stated fails: the external id [a] is registered in the graph
    loaded from the toy data set, and [add_node] with a node of that id
    returns [None] instead of raising [DuplicateIdentifierError]; with the
    new id [z] it registers nothing. *)
Lemma add_node_duplicate_not_rejected :
  IdentityMap.registered (node_map (_data Toy.toy_graph)) "a"
  ∧ add_node Toy.toy_graph (PyTuple [PyStr "a"]) = (Toy.toy_graph, inr PyNone)
  ∧ (∀ e, (add_node Toy.toy_graph (PyTuple [PyStr "a"])).2 ≠ inl e)
  ∧ ¬ IdentityMap.registered
        (node_map (_data (add_node Toy.toy_graph (PyTuple [PyStr "z"])).1)) "z".
Proof.
  split; [apply toy_a_registered|]. split; [reflexivity|]. split; [done|].
  intros (ids & idx & He & Hin). injection He as <- <-.
  apply elem_of_cons in Hin as [?|Hin]; [done|].
  apply elem_of_cons in Hin as [?|Hin]; [done|].
  apply elem_of_cons in Hin as [?|Hin]; [done|].
  by apply elem_of_nil in Hin.
Qed.

(** C9, as the code has it. [from_neo4j], [from_networkx] and [from_dgl]
    never return a graph: called with no argument besides the class they
    raise [NotImplementedError]; called with any positional or keyword
    argument the call is rejected with [TypeError], since they declare no
    parameter. *)
Theorem constructors_unavailable (args : list pyobj) (kwargs : list (string * pyobj)) :
  ∃ e, from_neo4j args kwargs = inl e
       ∧ from_networkx args kwargs = inl e
       ∧ from_dgl args kwargs = inl e
       ∧ (args = [] ∧ kwargs = [] → e = NotImplementedError)
       ∧ (args ≠ [] ∨ kwargs ≠ [] → exn_class e = "TypeError").
Proof.
  unfold from_neo4j, from_networkx, from_dgl, bind_cls_only.
  destruct kwargs as [|[k v] kwargs]; [destruct args as [|a args]|].
  - exists NotImplementedError. split_and!; try done. by intros [?|?].
  - eexists. split_and!; try done. by intros [? _].
  - eexists. split_and!; try done. by intros [_ ?].
Qed.

Lemma constructors_unavailable_witness :
  from_neo4j [] [] = inl NotImplementedError
  ∧ from_networkx [] [] = inl NotImplementedError
  ∧ from_dgl [] [] = inl NotImplementedError.
Proof.
  destruct (constructors_unavailable [] []) as (e & H1 & H2 & H3 & He & _).
  rewrite H1, H2, H3, (He (conj eq_refl eq_refl)). repeat split.
Defined.

(** C9 as stated fails: the call of the module's docstring,
    [Graph.from_neo4j(config_file = "./CONFIG.cfg")], raises [TypeError],
    not [NotImplementedError]. *)
Lemma from_neo4j_with_argument_is_TypeError :
  ∃ e, from_neo4j [] [("config_file", PyStr "./CONFIG.cfg")] = inl e
       ∧ exn_class e = "TypeError"
       ∧ e ≠ NotImplementedError.
Proof. eexists. split; [reflexivity|]. split; [reflexivity|discriminate]. Qed.

(** C6. [is_heterogeneous] is true exactly when the Heterogeneity
    Descriptor of the container lists more than one node class or more
    than one edge class. *)
Theorem is_heterogeneous_iff (self : Graph) :
  is_heterogeneous self = true
  ↔ 1 < size (hd_node_classes (descriptor (_data self)))
    ∨ 1 < size (hd_edge_classes (descriptor (_data self))).
Proof.
  unfold is_heterogeneous, _is_heterogeneous.
  rewrite orb_true_iff, !bool_decide_eq_true. reflexivity.
Qed.

Example is_heterogeneous_two_classes :
  is_heterogeneous (__init__ Toy.two_class_data) = true
  ∧ is_heterogeneous Toy.toy_graph = false.
Proof. split; vm_compute; reflexivity. Qed.

(** *** The conversions of the module's docstring *)


(** The names that the class does bind are found. *)
Example lookup_defined :
  lookup (__init__ Toy.two_class_data) "add_node" = inr ()
  ∧ lookup (__init__ Toy.two_class_data) "format" = inr ()
  ∧ lookup (__init__ ToyFull.other_data) "format"
    = inl (AttributeError "'Graph' object has no attribute 'format'").
Proof. split_and!; vm_compute; reflexivity. Qed.

(* ===================================================================== *)
(** ** Further properties of the loader *)
(* ===================================================================== *)

Section Outcomes.
Context (infer : NxGraph → pyobj → pyobj → option ndarray → HeterogeneityDescriptor).
Context (p d : string) (h : Host).

(** The whole of a successful load: with the mandatory files decoded,
    each of the class map and the feature file either absent or decoded,
    and the walks file either absent or readable as text,
    [from_graphsage] opens the five paths and returns the graph built
    from the decoded values, [None] standing for an absent file. *)
Theorem from_graphsage_returns G m cm fm w :
  loads_graph h (path_of p d "-G.json") G →
  loads_json h (path_of p d "-id_map.json") m →
  class_map_is h p d cm → feats_map_is h p d fm → walks_is h p d w →
  run (from_graphsage infer p (Some d)) h
  = (file_paths p d, inr (__init__ (GraphSAGE_new infer G m cm fm))).
Proof. apply from_graphsage_all_ok. Qed.

(** An optional file that is there but cannot be decoded, or that cannot
    be opened for another reason than being absent, ends the load,
    although the file is optional: the exception propagates, the files
    after it are not opened, no graph is returned. *)
Theorem from_graphsage_optional_fault e log :
  optional_fault h p d e log →
  run (from_graphsage infer p (Some d)) h = (log, inl e).
Proof.
  intros Hfault. rewrite from_graphsage_run.
  destruct Hfault as [G m e HG Hm (bytes & Hf & Hj) He
                     |G m cm e HG Hm Hc (bytes & Hf & Hn) He
                     |G m HG Hm Hf He
                     |G m cm HG Hm Hc Hf He
                     |G m cm fm HG Hm Hc Hfm Hf He
                     |G m cm fm bytes HG Hm Hc Hfm Hf Hd];
    rewrite (load_G_ok _ _ _ _ HG), (load_id_map_ok _ _ _ _ Hm).
  - rewrite outcome_load_class_map, Hf, Hj. unfold caught. by rewrite He.
  - rewrite (load_class_map_ok _ _ _ _ Hc), outcome_load_feats, Hf, Hn.
    unfold caught. by rewrite He.
  - unfold missing in Hf. rewrite outcome_load_class_map, Hf. unfold caught. by rewrite He.
  - unfold missing in Hf.
    rewrite (load_class_map_ok _ _ _ _ Hc), outcome_load_feats, Hf.
    unfold caught. by rewrite He.
  - unfold missing in Hf.
    rewrite (load_class_map_ok _ _ _ _ Hc), (load_feats_ok _ _ _ _ Hfm),
      outcome_load_walks, Hf.
    unfold caught. by rewrite He.
  - by rewrite (load_class_map_ok _ _ _ _ Hc), (load_feats_ok _ _ _ _ Hfm),
      outcome_load_walks, Hf, Hd.
Qed.

(** A [FileNotFoundError] that leaves [from_graphsage] was raised while
    loading one of the two mandatory files: the last path opened is that
    of [-G.json] or of [-id_map.json], never that of an optional file. *)
Theorem from_graphsage_FileNotFoundError log e :
  run (from_graphsage infer p (Some d)) h = (log, inl e) →
  is_FileNotFoundError e = true →
  log = [path_of p d "-G.json"]
  ∨ log = [path_of p d "-G.json"; path_of p d "-id_map.json"].
Proof.
  rewrite from_graphsage_run. intros Hrun He.
  destruct (outcome (load_G p d) h) as [e1|G]; [left; by injection Hrun as <- _|].
  destruct (outcome (load_id_map p d) h) as [e2|m]; [right; by injection Hrun as <- _|].
  exfalso.
  destruct (outcome (load_class_map p d) h) as [e3|cm] eqn:E3.
  { injection Hrun as _ ->. apply load_class_map_raises in E3. congruence. }
  destruct (outcome (load_feats p d) h) as [e4|fm] eqn:E4.
  { injection Hrun as _ ->. apply load_feats_raises in E4. congruence. }
  destruct (outcome (load_walks p d) h) as [e5|w] eqn:E5; [|done].
  injection Hrun as _ ->. apply load_walks_raises in E5. congruence.
Qed.

Lemma from_graphsage_inv g :
  outcome (from_graphsage infer p (Some d)) h = inr g →
  ∃ G m cm fm w,
    outcome (load_G p d) h = inr G
    ∧ outcome (load_id_map p d) h = inr m
    ∧ outcome (load_class_map p d) h = inr cm
    ∧ outcome (load_feats p d) h = inr fm
    ∧ outcome (load_walks p d) h = inr w
    ∧ g = __init__ (GraphSAGE_new infer G m cm fm).
Proof.
  unfold outcome at 1. rewrite from_graphsage_run.
  destruct (outcome (load_G p d) h) as [e1|G]; [done|].
  destruct (outcome (load_id_map p d) h) as [e2|m]; [done|].
  destruct (outcome (load_class_map p d) h) as [e3|cm]; [done|].
  destruct (outcome (load_feats p d) h) as [e4|fm]; [done|].
  destruct (outcome (load_walks p d) h) as [e5|w]; [done|].
  intros [= <-]. by exists G, m, cm, fm, w.
Qed.

(** Every graph that [from_graphsage] returns carries the tag
    [graphsage] and a GraphSAGE container whose graph is the one decoded
    from [{prefix}-G.json], whatever the optional files hold. *)
Theorem from_graphsage_tag_and_graph g :
  outcome (from_graphsage infer p (Some d)) h = inr g →
  format g = Some "graphsage"
  ∧ data_class (_data g) = Some GraphSAGE
  ∧ loads_graph h (path_of p d "-G.json") (graph (_data g)).
Proof.
  intros Hg. destruct (from_graphsage_inv g Hg) as (G & m & cm & fm & w & HG & _ & _ & _ & _ & ->).
  split; [done|]. split; [done|]. by apply load_G_inv.
Qed.

(** JSON [null] decodes to [None], the value that stands for an absent
    class map: a data set whose class map file holds [null] loads exactly
    as it does with that file removed. *)
Theorem from_graphsage_null_class_map :
  loads_json h (path_of p d "-class_map.json") PyNone →
  run (from_graphsage infer p (Some d)) h
  = run (from_graphsage infer p (Some d)) (without_file h (path_of p d "-class_map.json")).
Proof.
  intros Hnull.
  pose proof (same_but_at_without_file h (path_of p d "-class_map.json")) as Hsame.
  pose proof Hsame as (Hj & Hg & Hn & Hd & _).
  rewrite !from_graphsage_run.
  rewrite <- (load_G_hosts p d h (without_file h _)); [|by eapply same_but_at_agree|done..].
  rewrite <- (load_id_map_hosts p d h (without_file h _));
    [|by eapply same_but_at_agree|done..].
  rewrite <- (load_feats_hosts p d h (without_file h _));
    [|by eapply same_but_at_agree|done..].
  rewrite <- (load_walks_hosts p d h (without_file h _));
    [|by eapply same_but_at_agree|done..].
  rewrite (load_class_map_ok p d h PyNone); [|by right].
  rewrite (load_class_map_ok p d (without_file h _) PyNone); [done|].
  left. split; [|done]. split; simpl.
  - apply lookup_delete_eq.
  - by rewrite bool_decide_eq_true_2.
Qed.
End Outcomes.

Lemma toyfull_loads_graph fs :
  fs !! "data/toy-G.json" = Some Toy.G_text →
  loads_graph (ToyFull.host fs) (path_of "toy" "data" "-G.json") Toy.G_graph.
Proof.
  intros Hfs. exists Toy.G_value. split; [|reflexivity].
  exists Toy.G_text. split; [exact Hfs|]. vm_compute. reflexivity.
Defined.

Lemma toyfull_loads_id_map fs :
  fs !! "data/toy-id_map.json" = Some Toy.id_map_text →
  loads_json (ToyFull.host fs) (path_of "toy" "data" "-id_map.json") Toy.id_map_value.
Proof.
  intros Hfs. exists Toy.id_map_text. split; [exact Hfs|]. vm_compute. reflexivity.
Defined.

Lemma toyfull_absent fs s :
  fs !! path_of "toy" "data" s = None →
  absent (ToyFull.host fs) (path_of "toy" "data" s).
Proof. intros Hfs. split; [exact Hfs|reflexivity]. Defined.

Lemma from_graphsage_returns_witness :
  run (from_graphsage Toy.homogeneous "toy" (Some "data"))
    (ToyFull.host ToyFull.with_optional)
  = (file_paths "toy" "data",
     inr (__init__ (GraphSAGE_new Toy.homogeneous Toy.G_graph Toy.id_map_value
                      ToyFull.class_map_value (Some ToyFull.feats_value)))).
Proof.
  apply (from_graphsage_returns Toy.homogeneous "toy" "data"
           (ToyFull.host ToyFull.with_optional) _ _ _ _ None).
  - apply toyfull_loads_graph. vm_compute. reflexivity.
  - apply toyfull_loads_id_map. vm_compute. reflexivity.
  - right. exists ToyFull.class_map_text. split; vm_compute; reflexivity.
  - right. exists ToyFull.feats_value. split; [|reflexivity].
    exists ToyFull.feats_bytes. split; vm_compute; reflexivity.
  - left. split; [|reflexivity]. apply toyfull_absent. vm_compute. reflexivity.
Defined.

Lemma from_graphsage_optional_fault_witness :
  run (from_graphsage Toy.homogeneous "toy" (Some "data"))
    (ToyFull.host ToyFull.with_broken_class_map)
  = (["data/toy-G.json"; "data/toy-id_map.json"; "data/toy-class_map.json"],
     inl Toy.JSONDecodeError).
Proof.
  apply (from_graphsage_optional_fault Toy.homogeneous "toy" "data"
           (ToyFull.host ToyFull.with_broken_class_map)).
  apply (class_map_undecodable _ "toy" "data" Toy.G_graph Toy.id_map_value).
  - apply toyfull_loads_graph. vm_compute. reflexivity.
  - apply toyfull_loads_id_map. vm_compute. reflexivity.
  - exists "a,0,1". split; vm_compute; reflexivity.
  - vm_compute. reflexivity.
Defined.

(** A walks file that is not text in the encoding of the locale ends the
    load with [UnicodeDecodeError], after all five files were opened. *)
Example from_graphsage_undecodable_walks :
  let h := {| files := Toy.with_walks;
              open_error := FileNotFoundError;
              decode_text := λ bytes,
                if bool_decide (bytes = Toy.walks_text) then None else Some bytes;
              json_loads := Toy.toy_json_loads;
              node_link_graph := Toy.toy_node_link_graph;
              npy_loads := Toy.toy_npy_loads |} in
  run (from_graphsage Toy.homogeneous "toy" (Some "data")) h
  = (file_paths "toy" "data", inl UnicodeDecodeError).
Proof. vm_compute. reflexivity. Qed.

Lemma from_graphsage_FileNotFoundError_witness :
  ["data/toy-G.json"] = [path_of "toy" "data" "-G.json"]
  ∨ ["data/toy-G.json"] = [path_of "toy" "data" "-G.json"; path_of "toy" "data" "-id_map.json"].
Proof.
  apply (from_graphsage_FileNotFoundError Toy.homogeneous "toy" "data" (Toy.host ∅)
           ["data/toy-G.json"] (FileNotFoundError "data/toy-G.json")).
  - vm_compute. reflexivity.
  - vm_compute. reflexivity.
Defined.

Lemma from_graphsage_tag_and_graph_witness :
  format Toy.toy_graph = Some "graphsage"
  ∧ data_class (_data Toy.toy_graph) = Some GraphSAGE
  ∧ loads_graph (Toy.host Toy.mandatory_only) (path_of "toy" "data" "-G.json")
      (graph (_data Toy.toy_graph)).
Proof.
  apply (from_graphsage_tag_and_graph Toy.homogeneous "toy" "data"
           (Toy.host Toy.mandatory_only)).
  vm_compute. reflexivity.
Defined.

Lemma from_graphsage_null_class_map_witness :
  run (from_graphsage Toy.homogeneous "toy" (Some "data"))
    (ToyFull.host ToyFull.with_null_class_map)
  = run (from_graphsage Toy.homogeneous "toy" (Some "data"))
      (without_file (ToyFull.host ToyFull.with_null_class_map)
         (path_of "toy" "data" "-class_map.json")).
Proof.
  apply (from_graphsage_null_class_map Toy.homogeneous "toy" "data"
           (ToyFull.host ToyFull.with_null_class_map)).
  exists "null". split; vm_compute; reflexivity.
Defined.

(** *** The names of the five files *)

Lemma suffixes_not_absolute s : s ∈ suffixes → startswith_sep s = false.
Proof.
  unfold suffixes. rewrite !elem_of_cons, elem_of_nil.
  intros [->|[->|[->|[->|[->|[]]]]]]; reflexivity.
Qed.

(** The five paths are pairwise distinct, whatever the prefix and the
    directory: no file of a data set is read in place of another. *)
Theorem file_paths_NoDup p d : NoDup (file_paths p d).
Proof.
  unfold file_paths. apply NoDup_fmap_2_strong.
  - intros s1 s2 H1 H2. apply path_of_inj; by apply suffixes_not_absolute.
  - apply (bool_decide_unpack _). vm_compute. reflexivity.
Qed.

Lemma endswith_sep_app_sep d : endswith_sep (d +:+ "/") = true.
Proof.
  induction d as [|c d IH]; [reflexivity|].
  rewrite append_cons. simpl. rewrite IH. by destruct (d +:+ "/").
Qed.

Lemma startswith_sep_absolute p s :
  startswith_sep p = true → startswith_sep (p +:+ s) = true.
Proof. by destruct p. Qed.

Lemma path_of_trailing_sep p d s :
  d ≠ "" → endswith_sep d = false →
  path_of p (d +:+ "/") s = path_of p d s.
Proof.
  intros Hd He. unfold path_of, join.
  destruct (startswith_sep (p +:+ s)); [done|].
  rewrite endswith_sep_app_sep, orb_true_r, He, orb_false_r.
  destruct d as [|c d]; [done|]. simpl. by rewrite append_assoc.
Qed.

Lemma path_of_absolute p d s :
  startswith_sep p = true → path_of p d s = p +:+ s.
Proof.
  intros Hp. unfold path_of, join. by rewrite (startswith_sep_absolute _ _ Hp).
Qed.

Lemma path_of_no_directory p s : path_of p "" s = p +:+ s.
Proof. unfold path_of, join. by destruct (startswith_sep (p +:+ s)). Qed.

(** A load depends on the directory only through the five paths. *)
Lemma from_graphsage_same_paths infer p d d' :
  (∀ s, s ∈ suffixes → path_of p d s = path_of p d' s) →
  from_graphsage infer p (Some d) = from_graphsage infer p (Some d').
Proof.
  intros Hs. unfold from_graphsage. rewrite !load_files_eq.
  unfold load_G, load_id_map, load_class_map, load_feats, load_walks.
  rewrite !(Hs "-G.json"), !(Hs "-id_map.json"), !(Hs "-class_map.json"),
    !(Hs "-feats.npy"), !(Hs "-walks.txt"); [done|..];
    unfold suffixes; rewrite !elem_of_cons; auto 10.
Qed.

(** A directory given with a trailing separator loads the same files as
    the directory given without it: the paths, the exceptions and the
    graph are the same. *)
Theorem from_graphsage_trailing_sep infer p d h :
  d ≠ "" → endswith_sep d = false →
  run (from_graphsage infer p (Some (d +:+ "/"))) h
  = run (from_graphsage infer p (Some d)) h.
Proof.
  intros Hd He. rewrite (from_graphsage_same_paths infer p (d +:+ "/") d); [done|].
  intros s _. by apply path_of_trailing_sep.
Qed.

Lemma from_graphsage_trailing_sep_witness :
  run (from_graphsage Toy.homogeneous "toy" (Some "data/")) (Toy.host Toy.mandatory_only)
  = run (from_graphsage Toy.homogeneous "toy" (Some "data")) (Toy.host Toy.mandatory_only).
Proof.
  apply (from_graphsage_trailing_sep Toy.homogeneous "toy" "data"
           (Toy.host Toy.mandatory_only)).
  - discriminate.
  - vm_compute. reflexivity.
Defined.

(** A prefix that starts with the separator is an absolute path: the
    directory is ignored, the files opened are [prefix + suffix], and the
    load is the one obtained with the empty directory. *)
Theorem from_graphsage_absolute_prefix infer p d h :
  startswith_sep p = true →
  file_paths p d = (λ s, p +:+ s) <$> suffixes
  ∧ run (from_graphsage infer p (Some d)) h = run (from_graphsage infer p (Some "")) h.
Proof.
  intros Hp. split.
  - unfold file_paths. apply list_fmap_ext. intros i s _. by apply path_of_absolute.
  - rewrite (from_graphsage_same_paths infer p d ""); [done|].
    intros s _. by rewrite path_of_absolute, path_of_no_directory.
Qed.

Lemma from_graphsage_absolute_prefix_witness :
  file_paths "/srv/toy" "data" = (λ s, "/srv/toy" +:+ s) <$> suffixes
  ∧ run (from_graphsage Toy.homogeneous "/srv/toy" (Some "data")) (Toy.host ∅)
    = run (from_graphsage Toy.homogeneous "/srv/toy" (Some "")) (Toy.host ∅).
Proof.
  apply (from_graphsage_absolute_prefix Toy.homogeneous "/srv/toy" "data" (Toy.host ∅)).
  vm_compute. reflexivity.
Defined.

(** *** The lines of the walks file *)




Section WalkLines.
Context (p d : string) (h : Host).

End WalkLines.


(* ===================================================================== *)
(** ** Properties of [__repr__] and of the methods without a body *)
(* ===================================================================== *)

Lemma dedent_repr_literal :
  dedent repr_literal = rendered "{0}" "{1}" "{2}".
Proof. vm_compute. reflexivity. Qed.

Lemma str_format_repr tag n m :
  str_format (dedent repr_literal) [tag; n; m] = inr (rendered tag n m).
Proof. rewrite dedent_repr_literal. reflexivity. Qed.

(** With the tag set, [__repr__] raises nothing and returns the five
    lines of the text, the tag and the two counts in decimal; braces in
    the tag are not read as fields. *)
Theorem repr_tagged (self : Graph) tag :
  format self = Some tag →
  __repr__ self
  = inr (rendered tag (pretty (length (get_nodes self)))
           (pretty (length (get_edges self)))).
Proof. intros Hf. unfold __repr__. rewrite Hf. apply str_format_repr. Qed.

Lemma repr_tagged_witness :
  __repr__ Toy.toy_graph = inr (rendered "graphsage" "3" "2").
Proof. apply (repr_tagged Toy.toy_graph "graphsage"). reflexivity. Defined.

(** [__repr__] of a freshly built object raises exactly when the
    container is an instance of none of [Neo4j], [NetworkX] and
    [GraphSAGE]: [__init__] then sets no [format], and reading it raises
    [AttributeError]. *)
Theorem repr_raises_iff (data : GraphData) :
  (∃ e, __repr__ (__init__ data) = inl e) ↔ data_class data = None.
Proof.
  split.
  - intros [e He]. destruct (format (__init__ data)) as [tag|] eqn:Hf.
    + unfold __repr__ in He. by rewrite Hf, str_format_repr in He.
    + unfold __init__ in Hf. simpl in Hf. by destruct (data_class data) as [[]|].
  - intros Hd. eexists. unfold __repr__, __init__. simpl. by rewrite Hd.
Qed.

Example repr_other_container :
  __repr__ (__init__ ToyFull.other_data)
  = inl (AttributeError "'Graph' object has no attribute 'format'").
Proof. reflexivity. Qed.

Section ReprLoaded.
Context (infer : NxGraph → pyobj → pyobj → option ndarray → HeterogeneityDescriptor).
Context (p d : string) (h : Host).

(** [repr] of a graph that [from_graphsage] returns never raises: it
    shows the tag [graphsage] and the numbers of nodes and of edges of
    the graph decoded from [{prefix}-G.json]. *)
Theorem repr_of_loaded g :
  outcome (from_graphsage infer p (Some d)) h = inr g →
  ∃ G, loads_graph h (path_of p d "-G.json") G
       ∧ __repr__ g = inr (rendered "graphsage" (pretty (length (nx_nodes G)))
                             (pretty (length (nx_edges G)))).
Proof.
  intros Hg.
  destruct (from_graphsage_inv infer _ _ _ g Hg)
    as (G & m & cm & fm & w & HG & _ & _ & _ & _ & ->).
  exists G. split; [by apply load_G_inv|]. unfold __repr__. simpl. apply str_format_repr.
Qed.
End ReprLoaded.

Lemma repr_of_loaded_witness :
  ∃ G, loads_graph (Toy.host Toy.mandatory_only) (path_of "toy" "data" "-G.json") G
       ∧ __repr__ Toy.toy_graph
         = inr (rendered "graphsage" (pretty (length (nx_nodes G)))
                  (pretty (length (nx_edges G)))).
Proof.
  apply (repr_of_loaded Toy.homogeneous "toy" "data" (Toy.host Toy.mandatory_only)).
  vm_compute. reflexivity.
Defined.

(** No sequence of calls of [add_node], [add_edge], [__getitem__] and
    [__setitem__] changes the object or raises: every call returns
    [None], so an item that was set is not read back and a node that was
    added is not among the nodes. *)
Theorem do_calls_unchanged (cs : list call) (self : Graph) :
  do_calls cs self = (self, replicate (length cs) (inr PyNone)).
Proof.
  induction cs as [|c cs IH]; [done|].
  simpl. destruct c; simpl; by rewrite IH.
Qed.

Example set_then_get :
  do_calls [SetItem (PyStr "a") (PyInt 7); GetItem (PyStr "a");
            AddNode (PyTuple [PyStr "z"])] Toy.toy_graph
  = (Toy.toy_graph, [inr PyNone; inr PyNone; inr PyNone])
  ∧ get_nodes (do_calls [AddNode (PyTuple [PyStr "z"])] Toy.toy_graph).1
    = [PyStr "a"; PyStr "b"; PyStr "c"].
Proof. split; reflexivity. Qed.
